(** * F1 lap times pipeline: a shallow embedding of
      [engineering/f1_lap_times_pipeline.py] and
      [engineering/generate_sample_data.py], and the properties of the
      validate / aggregate / rank / emit stages.

    Modelling conventions.
    - A cell of a frame is a number, text or missing ([NaN], what
      [pd.read_csv] makes of a blank cell).  [validate_data] accepts missing
      cells; the aggregations skip them.  Numbers are finite.
    - A number is a rational ([Q]), as every binary64 value is.  Comparisons,
      minima and counts are exact on such values.  The two operations of the
      dataframe library whose result is rounded to binary64, the mean of a
      group and [round(decimals)], are an interface ([Float64]) that asks
      only for a rounding that keeps the order of numbers: the theorems for
      all inputs hold for every such arithmetic.  The concrete scenarios are
      evaluated with the exact arithmetic of rationals ([exact_Float64]).
    - A Python exception is its class name and its message.
    - A method of [F1LapTimesProcessor] is a function from the object to an
      outcome and the object afterwards.
    - [DataFrame.sort_values] is called with the library's default sort kind,
      whose handling of equal keys is not fixed by its contract: it is an
      interface ([SortValues]), with insertion sort as an instance. *)

From Stdlib Require Import QArith Qround Qminmax ZArith String List Bool Lia.
From Stdlib Require Import Sorting.Sorted Sorting.Permutation.
Import ListNotations.

Open Scope string_scope.
Open Scope Q_scope.

(* ================================================================== *)
(** * Outcomes and exceptions *)

Record exception := mkException { exc_class : string; exc_msg : string }.

Definition ValueError (msg : string) : exception := mkException "ValueError" msg.
Definition KeyError (msg : string) : exception := mkException "KeyError" msg.
Definition TypeError (msg : string) : exception := mkException "TypeError" msg.
Definition IndexError (msg : string) : exception := mkException "IndexError" msg.
Definition FileNotFoundError (msg : string) : exception :=
  mkException "FileNotFoundError" msg.

Inductive result (A : Type) : Type :=
| Return (a : A)
| Raise (e : exception).

Arguments Return {A} a.
Arguments Raise {A} e.

(* ================================================================== *)
(** * Frames *)

(** A cell as [pd.read_csv] leaves it: a number, text, or [NaN] for a blank
    cell. *)
Inductive cell : Type :=
| Num (q : Q)
| Str (s : string)
| NaN.

Definition Q_eq_dec (a b : Q) : {a = b} + {a <> b}.
Proof. decide equality; [apply Pos.eq_dec|apply Z.eq_dec]. Defined.

Definition cell_dec (a b : cell) : {a = b} + {a <> b}.
Proof. decide equality; [apply Q_eq_dec|apply string_dec]. Defined.

(** One index label of the input frame with its [Driver] and [Time] cells.
    [columns] is the header; a cell whose column the header lacks is never
    read ([validate_data] stops at the header). *)
Record Row := mkRow { row_Driver : cell; row_Time : cell }.

Record DataFrame := mkDataFrame { columns : list string; rows : list Row }.

(** [df['Driver']] and [df['Time']]. *)
Definition col_Driver (df : DataFrame) : list cell := map row_Driver (rows df).
Definition col_Time (df : DataFrame) : list cell := map row_Time (rows df).

(** [col in df.columns] *)
Definition has_column (df : DataFrame) (col : string) : bool :=
  existsb (String.eqb col) (columns df).

(** [df.empty]: no index label or no column. *)
Definition empty (df : DataFrame) : bool :=
  (length (rows df) =? 0)%nat || (length (columns df) =? 0)%nat.

Definition is_text (c : cell) : bool :=
  match c with Str _ => true | _ => false end.

(** [Series.notna()] *)
Definition notna (c : cell) : bool :=
  match c with NaN => false | _ => true end.

(** [pd.api.types.is_numeric_dtype]: a column is numeric when it has a cell
    and none of its cells is text (numbers and blanks make a float column); a
    column without cells has dtype [object]. *)
Definition is_numeric_dtype (s : list cell) : bool :=
  match s with
  | [] => false
  | _ :: _ => negb (existsb is_text s)
  end.

Definition Qltb (x y : Q) : bool := negb (Qle_bool y x).

(** One entry of [df['Time'] < 0]; a comparison with [NaN] is false. *)
Definition lt_zero (c : cell) : bool :=
  match c with
  | Num q => Qltb q 0
  | _ => false
  end.

(** The frame after [groupby(...).agg(...).reset_index()]. *)
Record AggRow := mkAggRow {
  agg_Driver : cell;
  agg_average_time : cell;
  agg_fastest_time : cell;
  agg_lap_count : nat
}.

(** The frame once the [rank] column is added. *)
Record DriverStats := mkDriverStats {
  Driver : cell;
  average_time : cell;
  fastest_time : cell;
  lap_count : nat;
  rank : nat
}.

(** The dictionary [load_json] dumps. *)
Record ResultDict := mkResultDict {
  top_drivers : list DriverStats;
  total_drivers_analyzed : nat;
  total_laps_analyzed : nat
}.

(* ================================================================== *)
(** * Library operations on columns *)

(** Insertion of [x] before the first element that is not below it. *)
Fixpoint insert {A : Type} (leb : A -> A -> bool) (x : A) (l : list A) : list A :=
  match l with
  | [] => [x]
  | y :: l' => if leb x y then x :: y :: l' else y :: insert leb x l'
  end.

Fixpoint isort {A : Type} (leb : A -> A -> bool) (l : list A) : list A :=
  match l with
  | [] => []
  | x :: l' => insert leb x (isort leb l')
  end.

(** A group key: the value of a cell, equal numbers being one key. *)
Definition key_of (c : cell) : cell :=
  match c with
  | Num q => Num (Qred q)
  | _ => c
  end.

(** The keys of a column: its cells that are not missing. *)
Definition keys (s : list cell) : list cell := map key_of (filter notna s).

(** The order of the keys: numbers by value, text by code point. *)
Definition key_leb (a b : cell) : bool :=
  match a, b with
  | Num x, Num y => Qle_bool x y
  | Num _, _ => true
  | Str _, Num _ => false
  | Str s, Str t => String.leb s t
  | Str _, NaN => true
  | NaN, NaN => true
  | NaN, _ => false
  end.

(** The group keys of [groupby('Driver')] (defaults [sort=True],
    [dropna=True]): the distinct drivers that are not missing, ascending. *)
Definition group_keys (drivers_col : list cell) : list cell :=
  isort key_leb (nodup cell_dec (keys drivers_col)).

(** [Series.nunique()]: the number of distinct values, missing ones apart. *)
Definition nunique (drivers_col : list cell) : nat :=
  length (nodup cell_dec (keys drivers_col)).

(** The [Time] cells of the rows whose driver is [k], in frame order. *)
Definition group_times (recs : list (cell * cell)) (k : cell) : list cell :=
  map snd (filter (fun r => if cell_dec (key_of (fst r)) k then true else false)
                  recs).

(** The arithmetic of the dataframe library on floating-point numbers: the
    mean of the numbers of a group, none of them missing, and
    [round(decimals)], which rounds to the nearest multiple of a power of ten
    and never turns the order of two numbers around. *)
Class Float64 := {
  float_mean : list Q -> Q;
  float_round : nat -> Q -> Q;
  float_round_monotone :
    forall decimals x y, x <= y -> float_round decimals x <= float_round decimals y
}.

Module Series.

Definition sum (ts : list Q) : Q := fold_right Qplus 0 ts.

(** The numbers of a column (the aggregations skip missing cells). *)
Fixpoint dropna (s : list cell) : list Q :=
  match s with
  | [] => []
  | Num q :: s' => q :: dropna s'
  | _ :: s' => dropna s'
  end.

(** ['mean'], ['min'] and ['count'] of a column: of its cells that are not
    missing; [NaN] when there is none. *)
Definition mean {F : Float64} (s : list cell) : cell :=
  match dropna s with
  | [] => NaN
  | t :: ts => Num (float_mean (t :: ts))
  end.

Definition min (s : list cell) : cell :=
  match dropna s with
  | [] => NaN
  | t :: ts => Num (fold_right Qmin t ts)
  end.

Definition count (s : list cell) : nat := length (filter notna s).

(** The mean in exact arithmetic: the sum over the count. *)
Definition exact_mean (ts : list Q) : Q :=
  sum ts / inject_Z (Z.of_nat (length ts)).

(** Round half to even to the nearest integer ([rint]). *)
Definition rint (x : Q) : Z :=
  let n := Qfloor (x + (1 # 2)) in
  if Qeq_bool (x + (1 # 2)) (inject_Z n) && Z.odd n then (n - 1)%Z else n.

(** [round(decimals)] of a number in exact arithmetic: scale by a power of
    ten, [rint], scale back. *)
Definition round (decimals : nat) (x : Q) : Q :=
  let scale := Z.to_pos (10 ^ Z.of_nat decimals) in
  rint (x * inject_Z (Zpos scale)) # scale.

(** [Series.round(decimals)], cell by cell: [NaN] stays [NaN]. *)
Definition round_cell {F : Float64} (decimals : nat) (c : cell) : cell :=
  match c with
  | Num q => Num (float_round decimals q)
  | _ => c
  end.

End Series.

Definition agg {F : Float64} (recs : list (cell * cell)) (k : cell) : AggRow :=
  let ts := group_times recs k in
  mkAggRow k (Series.mean ts) (Series.min ts) (Series.count ts).

(** [df.groupby('Driver').agg(average_time=('Time','mean'),
    fastest_time=('Time','min'), lap_count=('Time','count')).reset_index()].
    The library raises on a frame without the two columns and on a [Time]
    column with text, which it cannot average; [extract] never stores such a
    frame. *)
Definition groupby_agg {F : Float64} (df : DataFrame) : result (list AggRow) :=
  if negb (has_column df "Driver") then Raise (KeyError "'Driver'")
  else if negb (has_column df "Time") then
    Raise (KeyError "Column(s) ['Time'] do not exist")
  else if existsb is_text (col_Time df) then
    Raise (TypeError "agg function failed [how->mean,dtype->object]")
  else
    let recs := combine (col_Driver df) (col_Time df) in
    Return (map (agg recs) (group_keys (col_Driver df))).

(** [frame['rank'] = range(1, len(frame) + 1)] *)
Definition assign_rank (l : list AggRow) : list DriverStats :=
  map (fun ar : AggRow * nat =>
         let (a, r) := ar in
         mkDriverStats (agg_Driver a) (agg_average_time a) (agg_fastest_time a)
                       (agg_lap_count a) r)
      (combine l (seq 1 (length l))).

(** The two [round(3)] assignments of [transform]. *)
Definition round_times {F : Float64} (l : list DriverStats) : list DriverStats :=
  map (fun d => mkDriverStats (Driver d) (Series.round_cell 3 (average_time d))
                              (Series.round_cell 3 (fastest_time d))
                              (lap_count d) (rank d)) l.

(** [DataFrame.head(n)], that is [iloc[:n]]: the first [n] rows, and for a
    negative [n] all rows but the last [-n]. *)
Definition head {A : Type} (l : list A) (n : Z) : list A :=
  if (0 <=? n)%Z then firstn (Z.to_nat n) l
  else firstn (length l - Z.to_nat (- n)) l.

(** The order [sort_values] puts a column in ([ascending=True],
    [na_position='last']): numbers by value, then the missing cells. *)
Definition average_le (a b : cell) : Prop :=
  match a, b with
  | Num x, Num y => x <= y
  | _, Num _ => False
  | _, _ => True
  end.

Definition average_leb (a b : cell) : bool :=
  match a, b with
  | Num x, Num y => Qle_bool x y
  | _, Num _ => false
  | _, _ => true
  end.

(** [DataFrame.sort_values('average_time', ascending=True)] on the aggregated
    frame: the rows rearranged into ascending [average_time], rows without
    one last. *)
Class SortValues := {
  sort_values : list AggRow -> list AggRow;
  sort_values_Permutation : forall l, Permutation l (sort_values l);
  sort_values_Sorted :
    forall l, Sorted (fun a b => average_le (agg_average_time a)
                                            (agg_average_time b))
                     (sort_values l)
}.

(** Comparison of two aggregated rows by [average_time]. *)
Definition row_leb (a b : AggRow) : bool :=
  average_leb (agg_average_time a) (agg_average_time b).

(* ================================================================== *)
(** * The processor *)

Record F1LapTimesProcessor := mkProcessor {
  input_file : string;
  data : option DataFrame;
  results : option (list DriverStats)
}.

Definition __init__ (input_file : string) : F1LapTimesProcessor :=
  mkProcessor input_file None None.

(** A method: the outcome and the object afterwards. *)
Definition method (A : Type) : Type :=
  F1LapTimesProcessor -> result A * F1LapTimesProcessor.

Definition ret {A : Type} (a : A) : method A := fun self => (Return a, self).

Definition raise {A : Type} (e : exception) : method A :=
  fun self => (Raise e, self).

Definition bind {A B : Type} (m : method A) (f : A -> method B) : method B :=
  fun self =>
    match m self with
    | (Return a, self') => f a self'
    | (Raise e, self') => (Raise e, self')
    end.

Notation "x <- m ;; k" := (bind m (fun x => k))
  (at level 61, m at next level, right associativity).
Notation "m ;;; k" := (bind m (fun _ => k))
  (at level 61, right associativity).

(** Lifting of a library call that returns or raises. *)
Definition call {A : Type} (r : result A) : method A := fun self => (r, self).

Definition set_data (df : DataFrame) : method unit :=
  fun self => (Return tt, mkProcessor (input_file self) (Some df) (results self)).

Definition set_results (r : list DriverStats) : method unit :=
  fun self => (Return tt, mkProcessor (input_file self) (data self) (Some r)).

Definition required_columns : list string := ["Driver"; "Time"].

Definition validate_data (df : DataFrame) : result bool :=
  if negb (forallb (has_column df) required_columns) then
    Raise (ValueError "Missing required columns. Expected: ['Driver', 'Time']")
  else if empty df then
    Raise (ValueError "Input file is empty")
  else if negb (is_numeric_dtype (col_Time df)) then
    Raise (ValueError "Time column must contain numeric values")
  else if existsb lt_zero (col_Time df) then
    Raise (ValueError "Time values cannot be negative")
  else Return true.

Definition get_top_n (n : Z) : method (list DriverStats) :=
  fun self =>
    match results self with
    | None => raise (ValueError "No results available. Call transform() first.") self
    | Some r => ret (head r n) self
    end.

(** The rows [to_csv] writes. *)
Definition load_csv (top_n : Z) : method (list DriverStats) := get_top_n top_n.

(** The dictionary [json.dump] writes; [total_laps_analyzed] is
    [int(self.data['Driver'].count())]. *)
Definition load_json (top_n : Z) : method ResultDict :=
  top <- get_top_n top_n ;;
  fun self =>
    match results self, data self with
    | Some r, Some df =>
        ret (mkResultDict top (length r) (Series.count (col_Driver df))) self
    | _, _ => raise (TypeError "'NoneType' object is not subscriptable") self
    end.

Definition default_top_n : Z := 3.

Section Pipeline.

Context {F : Float64} {S : SortValues}.

(** [pd.read_csv]: the frame parsed from the file at a path, or the
    exception of the reader ([FileNotFoundError] when there is no file). *)
Variable read_csv : string -> result DataFrame.

(** Both handlers of [extract] log and re-raise. *)
Definition extract : method DataFrame :=
  fun self =>
    (df <- call (read_csv (input_file self)) ;;
     call (validate_data df) ;;;
     set_data df ;;;
     ret df) self.

Definition transform : method (list DriverStats) :=
  fun self =>
    match data self with
    | None => raise (ValueError "No data loaded. Call extract() first.") self
    | Some df =>
        (driver_stats <- call (groupby_agg df) ;;
         let driver_stats := sort_values driver_stats in
         let driver_stats := assign_rank driver_stats in
         let driver_stats := round_times driver_stats in
         (* the log line reads [driver_stats.iloc[0]] *)
         match driver_stats with
         | [] => raise (IndexError "single positional indexer is out-of-bounds")
         | _ :: _ => set_results driver_stats ;;; ret driver_stats
         end) self
    end.

(** [run_pipeline], which logs and re-raises what a stage raises: the rows
    of the CSV file and the dictionary of the JSON file; [print_summary]
    reads the same top rows.  The output paths are taken to be writable: the
    writes themselves ([to_csv], [open], [json.dump]) are not modelled. *)
Definition run_pipeline (top_n : Z) : method (list DriverStats * ResultDict) :=
  extract ;;;
  transform ;;;
  csv <- load_csv top_n ;;
  json <- load_json top_n ;;
  get_top_n top_n ;;;
  ret (csv, json).

End Pipeline.

(** The frame [transform] stores, from the aggregated frame [g]. *)
Definition ranked {F : Float64} `{SortValues} (g : list AggRow) : list DriverStats :=
  round_times (assign_rank (sort_values g)).

(* ================================================================== *)
(** * Properties of frames and outcomes *)

(** The four rules of [validate_data], as properties of a frame.  A numeric
    column has no text cell; blank cells do not make it text. *)
Definition has_required_fields (df : DataFrame) : Prop :=
  In "Driver" (columns df) /\ In "Time" (columns df).

Definition zero_rows (df : DataFrame) : Prop := rows df = [].

Definition Time_numeric (df : DataFrame) : Prop :=
  forall c, In c (col_Time df) -> forall s, c <> Str s.

Definition Time_negative (df : DataFrame) : Prop :=
  exists q, In (Num q) (col_Time df) /\ q < 0.

(** An outcome that is an exception of class [cls]. *)
Definition fails_with {A : Type} (r : result A) (cls : string) : Prop :=
  exists msg, r = Raise (mkException cls msg).

(** Some [Driver] cell is not missing. *)
Definition has_driver (df : DataFrame) : Prop :=
  exists r, In r (rows df) /\ row_Driver r <> NaN.

(** Some row has a driver and a time. *)
Definition has_lap (df : DataFrame) : Prop :=
  exists r q, In r (rows df) /\ row_Driver r <> NaN /\ row_Time r = Num q.

(** Every driver has a row with a time. *)
Definition every_driver_timed (df : DataFrame) : Prop :=
  forall r, In r (rows df) -> row_Driver r <> NaN ->
  exists r' q, In r' (rows df) /\
               key_of (row_Driver r') = key_of (row_Driver r) /\
               row_Time r' = Num q.

(** No cell of the two columns is missing. *)
Definition no_blank_cell (df : DataFrame) : Prop :=
  forall r, In r (rows df) -> row_Driver r <> NaN /\ row_Time r <> NaN.

(** The rows of driver [d]. *)
Definition driver_rows (df : DataFrame) (d : cell) : list Row :=
  filter (fun r => if cell_dec (key_of (row_Driver r)) d then true else false)
         (rows df).

(** The rows that have both a driver and a time. *)
Definition recorded_laps (df : DataFrame) : list Row :=
  filter (fun r => notna (row_Driver r) && notna (row_Time r)) (rows df).

(** Numbers in ascending order; a comparison with [NaN] is false. *)
Definition num_le (a b : cell) : Prop :=
  exists x y, a = Num x /\ b = Num y /\ x <= y.

(* ================================================================== *)
(** * Orders of tied drivers *)

(** No two rows of [l] have the same place in the order of [sort_values]. *)
Fixpoint distinct_averages (l : list AggRow) : bool :=
  match l with
  | [] => true
  | a :: l' =>
      forallb (fun b => negb (row_leb a b && row_leb b a)) l'
      && distinct_averages l'
  end.

Definition average_injective (l : list AggRow) : Prop :=
  NoDup l /\
  forall a b, In a l -> In b l ->
              average_le (agg_average_time a) (agg_average_time b) ->
              average_le (agg_average_time b) (agg_average_time a) -> a = b.





(* ================================================================== *)
(** * Sample frames *)

Definition test_data : DataFrame :=
  mkDataFrame ["Driver"; "Time"]
    [ mkRow (Str "Hamilton") (Num 4.32); mkRow (Str "Verstappen") (Num 4.28);
      mkRow (Str "Hamilton") (Num 4.45); mkRow (Str "Verstappen") (Num 4.31);
      mkRow (Str "Leclerc") (Num 4.50); mkRow (Str "Hamilton") (Num 4.38);
      mkRow (Str "Leclerc") (Num 4.48); mkRow (Str "Verstappen") (Num 4.29) ].

Definition test_files (path : string) : result DataFrame :=
  if String.eqb path "test_lap_times.csv" then Return test_data
  else Raise (FileNotFoundError path).

(** The frames of the unit tests for the four rules. *)
Definition missing_columns_data : DataFrame :=
  mkDataFrame ["Driver"; "WrongColumn"] [mkRow (Str "Hamilton") (Num 4.32)].

Definition empty_data : DataFrame := mkDataFrame ["Driver"; "Time"] [].

Definition text_times_data : DataFrame :=
  mkDataFrame ["Driver"; "Time"] [mkRow (Str "Hamilton") (Str "fast")].

Definition negative_times_data : DataFrame :=
  mkDataFrame ["Driver"; "Time"] [mkRow (Str "Hamilton") (Num (-4.32))].

(** Two drivers whose means differ in the fourth decimal. *)
Definition close_means_data : DataFrame :=
  mkDataFrame ["Driver"; "Time"]
    [ mkRow (Str "Alonso") (Num 4.2934); mkRow (Str "Bottas") (Num 4.2931) ].

(** Two drivers with the same mean, the later in the alphabet met first. *)
Definition equal_means_data : DataFrame :=
  mkDataFrame ["Driver"; "Time"]
    [ mkRow (Str "Sainz") (Num 4.30); mkRow (Str "Norris") (Num 4.30) ].

(** A file whose only row has a blank [Driver] cell. *)
Definition blank_drivers_data : DataFrame :=
  mkDataFrame ["Driver"; "Time"] [mkRow NaN (Num 4.32)].

(** A driver with a time and a driver whose only [Time] cell is blank. *)
Definition untimed_driver_data : DataFrame :=
  mkDataFrame ["Driver"; "Time"]
    [ mkRow (Str "Hamilton") (Num 4.32); mkRow (Str "Leclerc") NaN ].

(** Two rows of one driver, the second with a blank [Time] cell. *)
Definition missing_time_data : DataFrame :=
  mkDataFrame ["Driver"; "Time"]
    [ mkRow (Str "Hamilton") (Num 4.32); mkRow (Str "Hamilton") NaN ].

(** One row, with a blank [Time] cell. *)
Definition blank_times_data : DataFrame :=
  mkDataFrame ["Driver"; "Time"] [mkRow (Str "Hamilton") NaN].

(** Two rows, the first with a blank [Driver] cell. *)
Definition blank_driver_row_data : DataFrame :=
  mkDataFrame ["Driver"; "Time"]
    [ mkRow NaN (Num 4.32); mkRow (Str "Hamilton") (Num 4.45) ].

(** The rows of the ranked frame of [test_data]. *)
Definition test_results : list DriverStats :=
  [ mkDriverStats (Str "Verstappen") (Num 4.293) (Num 4.280) 3 1;
    mkDriverStats (Str "Hamilton") (Num 4.383) (Num 4.320) 3 2;
    mkDriverStats (Str "Leclerc") (Num 4.490) (Num 4.480) 2 3 ].

(* ================================================================== *)
(** * The sample data generator ([generate_sample_data.py]) *)

(** The module-level generator of Python's [random]: a state, the draw of
    [random()] in [0, 1), the draw below [n] that [randint] and [randrange]
    use, and [shuffle], which rearranges a list. *)
Class Random := {
  rng : Type;
  random : rng -> Q * rng;
  randbelow : Z -> rng -> Z * rng;
  shuffle : list (string * Q) -> rng -> list (string * Q) * rng;
  random_unit : forall g, 0 <= fst (random g) /\ fst (random g) < 1;
  randbelow_below :
    forall n g, (0 < n)%Z -> (0 <= fst (randbelow n g) < n)%Z;
  shuffle_Permutation : forall l g, Permutation l (fst (shuffle l g))
}.

(** [random.uniform(a, b)] is [a + (b - a) * random()]. *)
Definition uniform `{Random} (a b : Q) (g : rng) : Q * rng :=
  let (u, g') := random g in (a + (b - a) * u, g').

(** [random.randint(a, b)] is [a + randbelow(b + 1 - a)]. *)
Definition randint `{Random} (a b : Z) (g : rng) : Z * rng :=
  let (k, g') := randbelow (b + 1 - a) g in ((a + k)%Z, g').

(** The built-in [round(x, ndigits)]: half to even at [ndigits] decimals. *)
Definition round (x : Q) (ndigits : nat) : Q := Series.round ndigits x.

(** The loop of [generate_lap_times], [n] iterations left. *)
Fixpoint generate_laps `{Random} (driver_name : string) (base_time : Q)
         (n : nat) (variance : Q) (g : rng) : list (string * Q) * rng :=
  match n with
  | O => ([], g)
  | Datatypes.S n' =>
      let (u, g1) := uniform (- variance) variance g in
      let time := base_time + u in
      let time := round (Qmax time 1) 2 in
      let (lap_times, g2) := generate_laps driver_name base_time n' variance g1 in
      ((driver_name, time) :: lap_times, g2)
  end.

(** [range(num_laps)] is empty for a count that is not positive. *)
Definition generate_lap_times `{Random} (driver_name : string) (base_time : Q)
           (num_laps : Z) (variance : Q) (g : rng) : list (string * Q) * rng :=
  generate_laps driver_name base_time (Z.to_nat num_laps) variance g.

(** The drivers of [create_f1_sample_data] with their base times. *)
Definition drivers : list (string * Q) :=
  [ ("Hamilton", 4.56); ("Verstappen", 4.52); ("Leclerc", 4.58);
    ("Perez", 4.61); ("Sainz", 4.59); ("Russell", 4.57); ("Norris", 4.63);
    ("Alonso", 4.65); ("Ocon", 4.68); ("Gasly", 4.67); ("Piastri", 4.64);
    ("Stroll", 4.70); ("Tsunoda", 4.69); ("Hulkenberg", 4.71);
    ("Ricciardo", 4.66) ].

(** The loop over the drivers: three to eight laps each, default variance. *)
Fixpoint all_lap_times `{Random} (ds : list (string * Q)) (g : rng)
  : list (string * Q) * rng :=
  match ds with
  | [] => ([], g)
  | (driver_name, base_time) :: ds' =>
      let (num_laps, g1) := randint 3 8 g in
      let (lap_times, g2) := generate_lap_times driver_name base_time num_laps 0.5 g1 in
      let (rest, g3) := all_lap_times ds' g2 in
      ((lap_times ++ rest)%list, g3)
  end.

(** [pd.DataFrame(records, columns=['Driver', 'Time'])] *)
Definition DataFrame_of (records : list (string * Q)) : DataFrame :=
  mkDataFrame ["Driver"; "Time"]
              (map (fun r => mkRow (Str (fst r)) (Num (snd r))) records).

(** The CSV files, each as the frame [pd.read_csv] parses from it. *)
Definition files : Type := string -> option DataFrame.

(** [df.to_csv(path, index=False)] *)
Definition to_csv (df : DataFrame) (path : string) (fs : files) : files :=
  fun p => if String.eqb p path then Some df else fs p.

Definition read_csv_in (fs : files) (path : string) : result DataFrame :=
  match fs path with
  | Some df => Return df
  | None => Raise (FileNotFoundError path)
  end.

(** [create_f1_sample_data]: the file written and the generator afterwards. *)
Definition create_f1_sample_data `{Random} (output_file : string)
           (fs : files) (g : rng) : files * rng :=
  let (laps, g1) := all_lap_times drivers g in
  let (laps, g2) := shuffle laps g1 in
  let df := DataFrame_of laps in
  (to_csv df output_file fs, g2).

(** [main] of the pipeline: input [f1_lap_times.csv], top 3. *)
Definition main {F : Float64} `{SortValues} (fs : files)
  : result (list DriverStats * ResultDict) * F1LapTimesProcessor :=
  run_pipeline (read_csv_in fs) 3 (__init__ "f1_lap_times.csv").

(** A linear congruential generator, for an instance of [Random]. *)
Definition lcg_next (s : Z) : Z := ((1103515245 * s + 12345) mod 2147483648)%Z.

(** What one generated record looks like. *)
Definition lap_record (driver_name : string) (base_time variance : Q)
           (r : string * Q) : Prop :=
  fst r = driver_name /\ 1 <= snd r /\ (exists k : Z, snd r = k # 100) /\
  (0 <= variance ->
   round (Qmax (base_time - variance) 1) 2 <= snd r /\
   snd r <= round (Qmax (base_time + variance) 1) 2).

(* ================================================================== *)
(** * Insertion sort *)

Section InsertionSort.

Context {A : Type} (leb : A -> A -> bool).

Lemma insert_Permutation (x : A) (l : list A) :
  Permutation (x :: l) (insert leb x l).
Proof.
  induction l as [|y l IH]; simpl.
  - apply Permutation_refl.
  - destruct (leb x y).
    + apply Permutation_refl.
    + eapply perm_trans; [apply perm_swap|].
      now apply perm_skip.
Qed.

Lemma isort_Permutation (l : list A) : Permutation l (isort leb l).
Proof.
  induction l as [|x l IH]; simpl.
  - constructor.
  - eapply perm_trans; [apply perm_skip, IH|apply insert_Permutation].
Qed.

Hypothesis leb_total : forall a b, leb a b = true \/ leb b a = true.

Lemma insert_Sorted (x : A) (l : list A) :
  Sorted (fun a b => leb a b = true) l ->
  Sorted (fun a b => leb a b = true) (insert leb x l).
Proof.
  induction l as [|y l IH]; simpl; intros Hs.
  - repeat constructor.
  - destruct (leb x y) eqn:Hxy.
    + constructor; [assumption|constructor; assumption].
    + inversion Hs as [|? ? Hl Hhd]; subst.
      constructor; [now apply IH|].
      destruct l as [|z l]; simpl.
      * constructor. destruct (leb_total x y); congruence.
      * destruct (leb x z).
        -- constructor. destruct (leb_total x y); congruence.
        -- inversion Hhd; subst. now constructor.
Qed.

Lemma isort_Sorted (l : list A) : Sorted (fun a b => leb a b = true) (isort leb l).
Proof.
  induction l as [|x l IH]; simpl.
  - constructor.
  - now apply insert_Sorted.
Qed.

End InsertionSort.

Lemma Sorted_weaken {A : Type} (R R' : A -> A -> Prop) (l : list A) :
  (forall a b, R a b -> R' a b) -> Sorted R l -> Sorted R' l.
Proof.
  intros HR. induction 1 as [|a l Hs IH Hhd]; constructor.
  - assumption.
  - destruct Hhd; constructor. now apply HR.
Qed.

Lemma Sorted_map {A B : Type} (R : A -> A -> Prop) (R' : B -> B -> Prop)
      (f : A -> B) (l : list A) :
  (forall a b, R a b -> R' (f a) (f b)) -> Sorted R l -> Sorted R' (map f l).
Proof.
  intros HR. induction 1 as [|a l Hs IH Hhd]; simpl; constructor.
  - assumption.
  - destruct Hhd; simpl; constructor. now apply HR.
Qed.

Lemma average_leb_le (a b : cell) : average_leb a b = true <-> average_le a b.
Proof.
  destruct a, b; simpl; try apply Qle_bool_iff; split; intros H;
    try exact I; try reflexivity; try discriminate; try contradiction.
Qed.

Lemma average_le_total (a b : cell) : average_le a b \/ average_le b a.
Proof.
  destruct a as [x| |], b as [y| |]; simpl; auto.
  destruct (Qlt_le_dec y x) as [H|H]; [right; now apply Qlt_le_weak|now left].
Qed.

Lemma average_le_trans (a b c : cell) :
  average_le a b -> average_le b c -> average_le a c.
Proof.
  destruct a, b, c; simpl; auto; try contradiction. apply Qle_trans.
Qed.

Lemma row_leb_total (a b : AggRow) : row_leb a b = true \/ row_leb b a = true.
Proof.
  unfold row_leb. rewrite !average_leb_le. apply average_le_total.
Qed.

#[export] Instance insertion_SortValues : SortValues.
Proof.
  refine {| sort_values := isort row_leb |}.
  - intro l. apply isort_Permutation.
  - intro l. eapply Sorted_weaken; [|apply isort_Sorted, row_leb_total].
    intros a b H. now apply average_leb_le.
Defined.

(** A sort that meets the contract of [sort_values] and turns rows of equal
    key around. *)
Definition reversing_SortValues : SortValues.
Proof.
  refine {| sort_values := fun l => isort row_leb (rev l) |}.
  - intro l. eapply perm_trans; [apply Permutation_rev|apply isort_Permutation].
  - intro l. eapply Sorted_weaken; [|apply isort_Sorted, row_leb_total].
    intros a b H. now apply average_leb_le.
Defined.

(* ================================================================== *)
(** * Facts about columns *)

Lemma Qltb_lt (x y : Q) : Qltb x y = true <-> x < y.
Proof.
  unfold Qltb. rewrite negb_true_iff. split; intros H.
  - apply Qnot_le_lt. intros Hle. apply Qle_bool_iff in Hle. congruence.
  - destruct (Qle_bool y x) eqn:E; [|reflexivity].
    apply Qle_bool_iff in E. exfalso. now apply (Qlt_not_le x y).
Qed.

Lemma has_column_In (df : DataFrame) (col : string) :
  has_column df col = true <-> In col (columns df).
Proof.
  unfold has_column. rewrite existsb_exists. split.
  - intros [c [Hin Heq]]. apply String.eqb_eq in Heq. now subst.
  - intros H. exists col. split; [assumption|apply String.eqb_refl].
Qed.

Lemma existsb_is_text (s : list cell) :
  existsb is_text s = false <-> forall c, In c s -> forall str, c <> Str str.
Proof.
  split.
  - intros H c Hc str ->.
    assert (existsb is_text s = true); [|congruence].
    apply existsb_exists. exists (Str str). now split.
  - intros H. destruct (existsb is_text s) eqn:E; [|reflexivity].
    apply existsb_exists in E as (c & Hc & Ht).
    destruct c as [q|str|]; try discriminate. exfalso. now apply (H _ Hc str).
Qed.

Lemma is_numeric_dtype_true (s : list cell) :
  is_numeric_dtype s = true <->
  s <> [] /\ forall c, In c s -> forall str, c <> Str str.
Proof.
  unfold is_numeric_dtype. destruct s as [|c s].
  - split; [discriminate|]. now intros [H _].
  - rewrite negb_true_iff, existsb_is_text. split.
    + intros H. split; [discriminate|assumption].
    + now intros [_ H].
Qed.

Lemma existsb_lt_zero (s : list cell) :
  existsb lt_zero s = false <-> forall q, In (Num q) s -> 0 <= q.
Proof.
  split.
  - intros H q Hq. apply Qnot_lt_le. intros Hlt.
    assert (existsb lt_zero s = true); [|congruence].
    apply existsb_exists. exists (Num q). split; [assumption|].
    now apply Qltb_lt.
  - intros H. destruct (existsb lt_zero s) eqn:E; [|reflexivity].
    apply existsb_exists in E as (c & Hc & Hlt).
    destruct c as [q|str|]; try discriminate.
    apply Qltb_lt in Hlt. exfalso. apply (Qlt_not_le _ _ Hlt). now apply H.
Qed.

Lemma empty_false (df : DataFrame) :
  empty df = false <-> rows df <> [] /\ columns df <> [].
Proof.
  unfold empty. rewrite orb_false_iff, !Nat.eqb_neq.
  destruct (rows df), (columns df); simpl; split; intros [H1 H2]; split;
    congruence || discriminate || lia.
Qed.

(** What a frame that passes [validate_data] looks like. *)
Lemma validate_data_Return (df : DataFrame) (b : bool) :
  validate_data df = Return b ->
  b = true /\ has_column df "Driver" = true /\ has_column df "Time" = true /\
  rows df <> [] /\
  existsb is_text (col_Time df) = false /\
  (forall q, In (Num q) (col_Time df) -> 0 <= q).
Proof.
  unfold validate_data, required_columns. simpl.
  destruct (has_column df "Driver"); simpl; [|discriminate].
  destruct (has_column df "Time"); simpl; [|discriminate].
  destruct (empty df) eqn:Hempty; [discriminate|].
  destruct (is_numeric_dtype (col_Time df)) eqn:Hnum; simpl; [|discriminate].
  destruct (existsb lt_zero (col_Time df)) eqn:Hneg; [discriminate|].
  intros H; inversion H; subst.
  apply empty_false in Hempty. apply is_numeric_dtype_true in Hnum.
  destruct Hnum as [_ Hnum].
  repeat split; try tauto.
  - now apply existsb_is_text.
  - now apply existsb_lt_zero.
Qed.

(** After a successful [extract] the object holds a frame that passed
    [validate_data]. *)
Lemma extract_Return (read_csv : string -> result DataFrame)
      (self self' : F1LapTimesProcessor) (df : DataFrame) :
  extract read_csv self = (Return df, self') ->
  read_csv (input_file self) = Return df /\
  validate_data df = Return true /\
  data self' = Some df /\ results self' = results self.
Proof.
  unfold extract, bind, call, set_data, ret.
  destruct (read_csv (input_file self)) as [df'|e]; [|discriminate].
  destruct (validate_data df') as [b|e] eqn:Hvalid; [|discriminate].
  intros H. inversion H; subst. simpl.
  apply validate_data_Return in Hvalid as Hb. destruct Hb as [-> _].
  repeat split; assumption.
Qed.

(* ================================================================== *)
(** * Rounding *)

Lemma rint_monotone (x y : Q) : x <= y -> (Series.rint x <= Series.rint y)%Z.
Proof.
  intros Hxy. unfold Series.rint.
  assert (Hh : x + (1 # 2) <= y + (1 # 2)) by now apply Qplus_le_l.
  pose proof (Qfloor_resp_le _ _ Hh) as Hfl.
  pose proof (Qfloor_le (x + (1 # 2))) as Hfx.
  set (nx := Qfloor (x + (1 # 2))) in *.
  set (ny := Qfloor (y + (1 # 2))) in *.
  destruct (Qeq_bool (y + (1 # 2)) (inject_Z ny) && Z.odd ny) eqn:Ey.
  - apply andb_true_iff in Ey as [Ety Eoy]. apply Qeq_bool_iff in Ety.
    destruct (Z.eq_dec nx ny) as [E|NE].
    + assert (Etx : x + (1 # 2) == inject_Z nx).
      { apply Qle_antisym; [|assumption].
        rewrite E, <- Ety. exact Hh. }
      apply Qeq_bool_iff in Etx. rewrite Etx, E, Eoy. simpl. lia.
    + destruct (Qeq_bool (x + (1 # 2)) (inject_Z nx) && Z.odd nx); lia.
  - destruct (Qeq_bool (x + (1 # 2)) (inject_Z nx) && Z.odd nx); lia.
Qed.

Lemma round_monotone (decimals : nat) (x y : Q) :
  x <= y -> Series.round decimals x <= Series.round decimals y.
Proof.
  intros Hxy. unfold Series.round.
  set (scale := Z.to_pos (10 ^ Z.of_nat decimals)).
  assert (H : x * inject_Z (Zpos scale) <= y * inject_Z (Zpos scale)).
  { apply Qmult_le_compat_r; [assumption|]. unfold Qle. simpl. lia. }
  apply rint_monotone in H. unfold Qle. simpl. nia.
Qed.

(** The arithmetic of rationals: the exact mean and the exact rounding half
    to even. *)
#[export] Instance exact_Float64 : Float64 :=
  {| float_mean := Series.exact_mean;
     float_round := Series.round;
     float_round_monotone := round_monotone |}.

(** Rounding keeps the order of [sort_values]. *)
Lemma round_cell_monotone {F : Float64} (decimals : nat) (a b : cell) :
  average_le a b ->
  average_le (Series.round_cell decimals a) (Series.round_cell decimals b).
Proof.
  destruct a, b; simpl; auto. apply float_round_monotone.
Qed.

(* ================================================================== *)
(** * Grouping *)

Lemma key_of_notna (c : cell) : c <> NaN -> key_of c <> NaN.
Proof. destruct c; simpl; congruence. Qed.

Lemma keys_In (s : list cell) (k : cell) :
  In k (keys s) <-> exists c, In c s /\ c <> NaN /\ key_of c = k.
Proof.
  unfold keys. rewrite in_map_iff. split.
  - intros (c & Hk & Hc). apply filter_In in Hc as [Hc Hn].
    exists c. repeat split; try assumption. intros ->. discriminate.
  - intros (c & Hc & Hn & Hk). exists c. split; [assumption|].
    apply filter_In. split; [assumption|]. destruct c; simpl; congruence.
Qed.

Lemma keys_not_NaN (s : list cell) : ~ In NaN (keys s).
Proof.
  intros H. apply keys_In in H as (c & _ & Hn & Hk).
  now apply (key_of_notna c).
Qed.

Lemma group_keys_Permutation (s : list cell) :
  Permutation (nodup cell_dec (keys s)) (group_keys s).
Proof. apply isort_Permutation. Qed.

Lemma group_keys_In (s : list cell) (k : cell) :
  In k (group_keys s) <-> In k (keys s).
Proof.
  split; intros H.
  - apply (nodup_In cell_dec).
    eapply Permutation_in; [apply Permutation_sym, group_keys_Permutation|exact H].
  - eapply Permutation_in; [apply group_keys_Permutation|].
    now apply nodup_In.
Qed.

Lemma group_keys_NoDup (s : list cell) : NoDup (group_keys s).
Proof.
  eapply Permutation_NoDup; [apply group_keys_Permutation|apply NoDup_nodup].
Qed.

Lemma group_keys_length (s : list cell) : length (group_keys s) = nunique s.
Proof.
  symmetry. apply Permutation_length, group_keys_Permutation.
Qed.

Lemma group_keys_not_NaN (s : list cell) : ~ In NaN (group_keys s).
Proof. intros H. apply group_keys_In in H. now apply (keys_not_NaN s). Qed.

Lemma has_driver_keys (df : DataFrame) :
  has_driver df <-> group_keys (col_Driver df) <> [].
Proof.
  split.
  - intros (r & Hr & Hn) Hnil.
    assert (Hin : In (key_of (row_Driver r)) (group_keys (col_Driver df))).
    { apply group_keys_In, keys_In. exists (row_Driver r).
      repeat split; [|assumption]. unfold col_Driver. now apply in_map. }
    rewrite Hnil in Hin. destruct Hin.
  - intros Hne. destruct (group_keys (col_Driver df)) as [|k ks] eqn:E;
      [congruence|].
    assert (Hin : In k (group_keys (col_Driver df))) by (rewrite E; now left).
    apply group_keys_In, keys_In in Hin as (c & Hc & Hn & _).
    unfold col_Driver in Hc. apply in_map_iff in Hc as (r & <- & Hr).
    now exists r.
Qed.

Lemma combine_columns (df : DataFrame) :
  combine (col_Driver df) (col_Time df) =
  map (fun r => (row_Driver r, row_Time r)) (rows df).
Proof.
  unfold col_Driver, col_Time. induction (rows df) as [|r rs IH]; simpl;
    [reflexivity|now rewrite IH].
Qed.

(** The cells a group aggregates are the [Time] cells of the rows of its
    driver. *)
Lemma group_times_driver_rows (df : DataFrame) (k : cell) :
  group_times (combine (col_Driver df) (col_Time df)) k =
  map row_Time (driver_rows df k).
Proof.
  rewrite combine_columns. unfold group_times, driver_rows.
  induction (rows df) as [|r rs IH]; simpl; [reflexivity|].
  destruct (cell_dec (key_of (row_Driver r)) k); simpl; now rewrite IH.
Qed.

(** A key of a duplicate-free list is met once. *)
Lemma count_key_NoDup (ks : list cell) (x : cell) :
  NoDup ks -> In x ks ->
  list_sum (map (fun k => if cell_dec x k then 1 else 0)%nat ks) = 1%nat.
Proof.
  induction 1 as [|k ks Hnotin Hnd IH]; simpl; intros Hin; [contradiction|].
  destruct (cell_dec x k) as [->|Hne].
  - assert (Hz : list_sum (map (fun k' => if cell_dec k k' then 1 else 0)%nat ks)
                 = 0%nat).
    { clear -Hnotin. induction ks as [|k' ks IH]; simpl; [reflexivity|].
      destruct (cell_dec k k') as [->|_].
      - exfalso. apply Hnotin. now left.
      - apply IH. intros H. apply Hnotin. now right. }
    now rewrite Hz.
  - destruct Hin as [->|Hin]; [congruence|]. now apply IH.
Qed.

Lemma count_key_notin (ks : list cell) (x : cell) :
  ~ In x ks ->
  list_sum (map (fun k => if cell_dec x k then 1 else 0)%nat ks) = 0%nat.
Proof.
  induction ks as [|k ks IH]; simpl; intros Hnotin; [reflexivity|].
  destruct (cell_dec x k) as [->|_].
  - exfalso. apply Hnotin. now left.
  - apply IH. intros H. apply Hnotin. now right.
Qed.

Lemma list_sum_cons (a : nat) (l : list nat) :
  list_sum (a :: l) = (a + list_sum l)%nat.
Proof. reflexivity. Qed.

Lemma list_sum_zero {A : Type} (l : list A) :
  list_sum (map (fun _ => 0%nat) l) = 0%nat.
Proof. induction l; simpl; auto. Qed.

(** Every row with a driver and a time is counted in the group of its driver
    and in no other; the other rows are counted nowhere. *)
Lemma lap_count_partition (ks : list cell) (rs : list Row) :
  NoDup ks -> ~ In NaN ks ->
  (forall r, In r rs -> row_Driver r <> NaN -> In (key_of (row_Driver r)) ks) ->
  list_sum
    (map (fun k =>
            Series.count
              (map row_Time
                   (filter (fun r => if cell_dec (key_of (row_Driver r)) k
                                     then true else false) rs))) ks) =
  length (filter (fun r => notna (row_Driver r) && notna (row_Time r)) rs).
Proof.
  intros Hnd Hnan. induction rs as [|r rs IH]; intros Hin.
  - simpl. apply list_sum_zero.
  - assert (Hsplit : forall ks',
      list_sum
        (map (fun k =>
                Series.count
                  (map row_Time
                       (filter (fun r0 => if cell_dec (key_of (row_Driver r0)) k
                                          then true else false) (r :: rs)))) ks') =
      (list_sum (map (fun k => if notna (row_Time r)
                               then (if cell_dec (key_of (row_Driver r)) k
                                     then 1 else 0)
                               else 0)%nat ks') +
       list_sum
         (map (fun k =>
                 Series.count
                   (map row_Time
                        (filter (fun r0 => if cell_dec (key_of (row_Driver r0)) k
                                           then true else false) rs))) ks'))%nat).
    { induction ks' as [|k ks' IHks]; [reflexivity|].
      rewrite !map_cons, !list_sum_cons, IHks. unfold Series.count. cbn [filter].
      destruct (cell_dec (key_of (row_Driver r)) k); cbn [map filter];
        destruct (notna (row_Time r)); cbn [length]; lia. }
    rewrite Hsplit, IH by (intros r' Hr'; apply Hin; now right).
    simpl filter.
    destruct (notna (row_Time r)) eqn:Htime.
    + destruct (row_Driver r) as [q|s|] eqn:Hdrv.
      * rewrite count_key_NoDup; [reflexivity|assumption|].
        rewrite <- Hdrv. apply Hin; [now left|congruence].
      * rewrite count_key_NoDup; [reflexivity|assumption|].
        rewrite <- Hdrv. apply Hin; [now left|congruence].
      * rewrite count_key_notin; [reflexivity|exact Hnan].
    + rewrite list_sum_zero. rewrite andb_false_r. reflexivity.
Qed.

(** The lap counts of the aggregated frame add up to the rows that have a
    driver and a time. *)
Lemma agg_lap_count_sum {F : Float64} (df : DataFrame) :
  list_sum (map agg_lap_count
                (map (agg (combine (col_Driver df) (col_Time df)))
                     (group_keys (col_Driver df)))) =
  length (recorded_laps df).
Proof.
  rewrite map_map. simpl.
  erewrite map_ext; [|intro k; rewrite group_times_driver_rows; reflexivity].
  unfold driver_rows, recorded_laps. apply lap_count_partition.
  - apply group_keys_NoDup.
  - apply group_keys_not_NaN.
  - intros r Hr Hn. apply group_keys_In, keys_In.
    exists (row_Driver r). repeat split; [|assumption].
    unfold col_Driver. now apply in_map.
Qed.

(* ================================================================== *)
(** * The columns of the ranked frame *)

Lemma assign_rank_columns (l : list AggRow) :
  map Driver (assign_rank l) = map agg_Driver l /\
  map average_time (assign_rank l) = map agg_average_time l /\
  map fastest_time (assign_rank l) = map agg_fastest_time l /\
  map lap_count (assign_rank l) = map agg_lap_count l /\
  map rank (assign_rank l) = seq 1 (length l).
Proof.
  unfold assign_rank. generalize 1%nat as start.
  induction l as [|a l IH]; intros start; simpl.
  - repeat split.
  - destruct (IH (Datatypes.S start)) as (H1 & H2 & H3 & H4 & H5).
    repeat split; f_equal; assumption.
Qed.

Lemma round_times_columns {F : Float64} (l : list DriverStats) :
  map Driver (round_times l) = map Driver l /\
  map average_time (round_times l) =
    map (Series.round_cell 3) (map average_time l) /\
  map fastest_time (round_times l) =
    map (Series.round_cell 3) (map fastest_time l) /\
  map lap_count (round_times l) = map lap_count l /\
  map rank (round_times l) = map rank l.
Proof.
  unfold round_times. rewrite !map_map. repeat split.
Qed.

Section Ranked.

Context {F : Float64} {S : SortValues}.

Lemma ranked_length (g : list AggRow) : length (ranked g) = length g.
Proof.
  unfold ranked, round_times, assign_rank.
  rewrite !length_map, length_combine, length_seq, Nat.min_id.
  symmetry. apply Permutation_length, sort_values_Permutation.
Qed.

Lemma ranked_Driver (g : list AggRow) :
  map Driver (ranked g) = map agg_Driver (sort_values g).
Proof.
  unfold ranked.
  destruct (round_times_columns (assign_rank (sort_values g))) as (-> & _).
  apply assign_rank_columns.
Qed.

Lemma ranked_average_time (g : list AggRow) :
  map average_time (ranked g) =
  map (Series.round_cell 3) (map agg_average_time (sort_values g)).
Proof.
  unfold ranked.
  destruct (round_times_columns (assign_rank (sort_values g))) as (_ & -> & _).
  f_equal. apply assign_rank_columns.
Qed.

Lemma ranked_lap_count (g : list AggRow) :
  map lap_count (ranked g) = map agg_lap_count (sort_values g).
Proof.
  unfold ranked.
  destruct (round_times_columns (assign_rank (sort_values g)))
    as (_ & _ & _ & -> & _).
  apply assign_rank_columns.
Qed.

Lemma ranked_rank (g : list AggRow) :
  map rank (ranked g) = seq 1 (length g).
Proof.
  unfold ranked.
  destruct (round_times_columns (assign_rank (sort_values g)))
    as (_ & _ & _ & _ & ->).
  destruct (assign_rank_columns (sort_values g)) as (_ & _ & _ & _ & ->).
  f_equal. symmetry. apply Permutation_length, sort_values_Permutation.
Qed.

(** The unrounded means in rank order are ascending, missing ones last. *)
Lemma sort_values_StronglySorted (g : list AggRow) :
  StronglySorted (fun a b => average_le (agg_average_time a) (agg_average_time b))
                 (sort_values g).
Proof.
  apply Sorted_StronglySorted; [|apply sort_values_Sorted].
  intros a b c. apply average_le_trans.
Qed.

Lemma ranked_average_time_Sorted (g : list AggRow) :
  Sorted average_le (map average_time (ranked g)).
Proof.
  rewrite ranked_average_time, map_map.
  eapply Sorted_map; [|apply sort_values_Sorted].
  intros a b. apply round_cell_monotone.
Qed.

Lemma ranked_In (g : list AggRow) (r : DriverStats) :
  In r (ranked g) ->
  exists a, In a g /\ Driver r = agg_Driver a /\
            average_time r = Series.round_cell 3 (agg_average_time a) /\
            fastest_time r = Series.round_cell 3 (agg_fastest_time a) /\
            lap_count r = agg_lap_count a.
Proof.
  unfold ranked, round_times, assign_rank. intros Hin.
  apply in_map_iff in Hin as (d & <- & Hd).
  apply in_map_iff in Hd as ([a k] & <- & Hak).
  apply in_combine_l in Hak. exists a. simpl. repeat split.
  eapply Permutation_in; [apply Permutation_sym, sort_values_Permutation|assumption].
Qed.

(** [transform] on a frame that passed [validate_data] and has a driver. *)
Lemma transform_valid (self : F1LapTimesProcessor) (df : DataFrame) :
  data self = Some df -> validate_data df = Return true -> has_driver df ->
  exists g,
    g = map (agg (combine (col_Driver df) (col_Time df)))
            (group_keys (col_Driver df)) /\
    groupby_agg df = Return g /\
    g <> [] /\
    length g = nunique (col_Driver df) /\
    transform self =
    (Return (ranked g),
     mkProcessor (input_file self) (Some df) (Some (ranked g))).
Proof.
  intros Hdata Hvalid Hdrv.
  destruct (validate_data_Return _ _ Hvalid) as (_ & HD & HT & _ & Htext & _).
  set (g := map (agg (combine (col_Driver df) (col_Time df)))
                (group_keys (col_Driver df))).
  assert (Hg : groupby_agg df = Return g).
  { unfold groupby_agg. now rewrite HD, HT, Htext. }
  assert (Hne : g <> []).
  { intros H. apply map_eq_nil in H. revert H. now apply has_driver_keys. }
  exists g. repeat split; try assumption.
  - unfold g. rewrite length_map. apply group_keys_length.
  - unfold transform. rewrite Hdata. unfold bind, call. rewrite Hg.
    fold (ranked g).
    destruct (ranked g) as [|d res] eqn:Hres.
    + exfalso. apply Hne. apply length_zero_iff_nil.
      rewrite <- ranked_length, Hres. reflexivity.
    + unfold set_results, ret. simpl. now rewrite Hdata.
Qed.

(** [transform] on a frame that passed [validate_data] and whose [Driver]
    cells are all blank: the log line raises and nothing is stored. *)
Lemma transform_without_driver (self : F1LapTimesProcessor) (df : DataFrame) :
  data self = Some df -> validate_data df = Return true -> ~ has_driver df ->
  transform self =
  (Raise (IndexError "single positional indexer is out-of-bounds"), self).
Proof.
  intros Hdata Hvalid Hdrv.
  destruct (validate_data_Return _ _ Hvalid) as (_ & HD & HT & _ & Htext & _).
  assert (Hk : group_keys (col_Driver df) = []).
  { destruct (group_keys (col_Driver df)) eqn:E; [reflexivity|].
    exfalso. apply Hdrv, has_driver_keys. rewrite E. discriminate. }
  unfold transform. rewrite Hdata. unfold bind, call, groupby_agg.
  rewrite HD, HT, Htext, Hk. simpl.
  assert (Hs : sort_values [] = []).
  { apply Permutation_nil, (sort_values_Permutation []). }
  now rewrite Hs.
Qed.

End Ranked.


(* ================================================================== *)
(** * Validation *)

Lemma Time_numeric_existsb (df : DataFrame) :
  Time_numeric df <-> existsb is_text (col_Time df) = false.
Proof. unfold Time_numeric. symmetry. apply existsb_is_text. Qed.

Lemma Time_negative_existsb (df : DataFrame) :
  Time_negative df <-> existsb lt_zero (col_Time df) = true.
Proof.
  unfold Time_negative. rewrite existsb_exists. split.
  - intros (q & Hin & Hq). exists (Num q). split; [assumption|].
    simpl. now apply Qltb_lt.
  - intros (c & Hin & Hc). destruct c as [q|str|]; try discriminate.
    exists q. split; [assumption|]. now apply Qltb_lt.
Qed.

Lemma has_required_fields_forallb (df : DataFrame) :
  has_required_fields df <-> forallb (has_column df) required_columns = true.
Proof.
  unfold has_required_fields, required_columns. simpl.
  rewrite andb_true_r, andb_true_iff, !has_column_In. tauto.
Qed.

(** C3 (as amended): validation checks four rules in order and stops at the
    first one violated, each time with a [ValueError] that only its message
    tells apart: a missing [Driver] or [Time] column; else zero rows; else a
    [Time] column that is not numeric; else a negative [Time] value.  A frame
    that satisfies all four rules is accepted with [True]. *)
Theorem validate_data_first_violation (df : DataFrame) :
  (~ has_required_fields df ->
   validate_data df =
   Raise (ValueError "Missing required columns. Expected: ['Driver', 'Time']")) /\
  (has_required_fields df -> zero_rows df ->
   validate_data df = Raise (ValueError "Input file is empty")) /\
  (has_required_fields df -> ~ zero_rows df -> ~ Time_numeric df ->
   validate_data df = Raise (ValueError "Time column must contain numeric values")) /\
  (has_required_fields df -> ~ zero_rows df -> Time_numeric df -> Time_negative df ->
   validate_data df = Raise (ValueError "Time values cannot be negative")) /\
  (has_required_fields df -> ~ zero_rows df -> Time_numeric df -> ~ Time_negative df ->
   validate_data df = Return true).
Proof.
  unfold validate_data.
  destruct (forallb (has_column df) required_columns) eqn:Hcols; simpl.
  - assert (Hreq : has_required_fields df) by now apply has_required_fields_forallb.
    split; [tauto|].
    destruct (empty df) eqn:Hempty.
    + assert (Hz : zero_rows df).
      { unfold zero_rows. unfold empty in Hempty.
        destruct Hreq as [HD _].
        destruct (rows df); [reflexivity|].
        destruct (columns df); [destruct HD|discriminate]. }
      repeat split; intros; tauto.
    + apply empty_false in Hempty as [Hrows _].
      split; [intros _ Hz; contradiction|].
      destruct (is_numeric_dtype (col_Time df)) eqn:Hnum; simpl.
      * apply is_numeric_dtype_true in Hnum as [_ Hnum].
        split; [tauto|].
        pose proof (Time_negative_existsb df) as Hneg.
        destruct (existsb lt_zero (col_Time df)).
        -- split; [reflexivity|]. intros _ _ _ H. exfalso. apply H. now apply Hneg.
        -- split; [|reflexivity]. intros _ _ _ H. apply Hneg in H. discriminate.
      * assert (Hnot : ~ Time_numeric df).
        { intros H.
          assert (is_numeric_dtype (col_Time df) = true); [|congruence].
          apply is_numeric_dtype_true. split; [|exact H].
          unfold col_Time. destruct (rows df); [congruence|discriminate]. }
        repeat split; intros; tauto.
  - assert (Hreq : ~ has_required_fields df).
    { intros H. apply has_required_fields_forallb in H. congruence. }
    repeat split; intros; tauto.
Qed.

(** C3 (as stated) fails: on a frame that lacks the [Time] column, on an empty
    one, on one with text in [Time] and on one with a negative time, the
    exception is a [ValueError] each time, not one of [SchemaError],
    [EmptyInputError], [TypeError] and [RangeError]. *)
Lemma validate_data_error_class :
  validate_data missing_columns_data =
    Raise (ValueError "Missing required columns. Expected: ['Driver', 'Time']") /\
  ~ fails_with (validate_data missing_columns_data) "SchemaError" /\
  validate_data empty_data = Raise (ValueError "Input file is empty") /\
  ~ fails_with (validate_data empty_data) "EmptyInputError" /\
  validate_data text_times_data =
    Raise (ValueError "Time column must contain numeric values") /\
  ~ fails_with (validate_data text_times_data) "TypeError" /\
  validate_data negative_times_data =
    Raise (ValueError "Time values cannot be negative") /\
  ~ fails_with (validate_data negative_times_data) "RangeError".
Proof.
  repeat split; try reflexivity; intros [msg H]; vm_compute in H; discriminate.
Qed.

(* ================================================================== *)
(** * Stages invoked out of order *)

(** C4 (as amended): [transform] on an object without loaded data raises
    [ValueError], and so do [get_top_n] and the two writers built on it on an
    object without results; no value is returned and the object is left as it
    was.  The class is [ValueError] in both cases; only the message names the
    stage that is missing. *)
Theorem stage_out_of_order {F : Float64} `{SortValues}
        (self : F1LapTimesProcessor) (n : Z) :
  (data self = None ->
   transform self =
   (Raise (ValueError "No data loaded. Call extract() first."), self)) /\
  (results self = None ->
   get_top_n n self =
   (Raise (ValueError "No results available. Call transform() first."), self) /\
   load_csv n self =
   (Raise (ValueError "No results available. Call transform() first."), self) /\
   load_json n self =
   (Raise (ValueError "No results available. Call transform() first."), self)).
Proof.
  split.
  - intros Hdata. unfold transform. now rewrite Hdata.
  - intros Hres. unfold load_json, load_csv, bind, get_top_n.
    rewrite Hres. repeat split.
Qed.

(** C4 (as stated) fails: on a fresh object both stages raise, and the class
    of the exception is [ValueError], not [PreconditionError]. *)
Lemma stage_out_of_order_error_class :
  fst (@transform exact_Float64 insertion_SortValues (__init__ "f1_lap_times.csv")) =
    Raise (ValueError "No data loaded. Call extract() first.") /\
  ~ fails_with (fst (@transform exact_Float64 insertion_SortValues
                       (__init__ "f1_lap_times.csv")))
      "PreconditionError" /\
  fst (get_top_n default_top_n (__init__ "f1_lap_times.csv")) =
    Raise (ValueError "No results available. Call transform() first.") /\
  ~ fails_with (fst (get_top_n default_top_n (__init__ "f1_lap_times.csv")))
      "PreconditionError".
Proof.
  repeat split; try reflexivity; intros [msg H]; vm_compute in H; discriminate.
Qed.


(* ================================================================== *)
(** * The ranked result of a valid input *)

Lemma dropna_In (s : list cell) (q : Q) :
  In q (Series.dropna s) <-> In (Num q) s.
Proof.
  induction s as [|c s IH]; simpl; [tauto|].
  destruct c as [x|str|]; simpl; rewrite IH; split;
    try (intros [H|H]; [left; congruence|now right]);
    try (intros H; now right);
    try (intros [H|H]; [discriminate|assumption]).
Qed.

Lemma Series_mean_Num {F : Float64} (s : list cell) (q : Q) :
  In (Num q) s -> exists m, Series.mean s = Num m.
Proof.
  intros H. apply dropna_In in H. unfold Series.mean.
  destruct (Series.dropna s); [destruct H|eauto].
Qed.

Lemma fold_Qmin_head (t : Q) (ts : list Q) :
  Forall (fun t' => t <= t') ts -> fold_right Qmin t ts == t.
Proof.
  induction 1 as [|t' ts Ht Hts IH]; simpl.
  - reflexivity.
  - rewrite IH. now apply Q.min_r.
Qed.

(** The minimum of a column that starts with its smallest number. *)
Lemma Series_min_first (q : Q) (s : list cell) :
  Forall (average_le (Num q)) s ->
  exists m, Series.min (Num q :: s) = Num m /\ m == q.
Proof.
  intros H. unfold Series.min. simpl. eexists. split; [reflexivity|].
  apply fold_Qmin_head. apply Forall_forall. intros x Hx.
  apply dropna_In in Hx. rewrite Forall_forall in H. exact (H _ Hx).
Qed.

Lemma Sorted_num_le (l : list cell) :
  Forall (fun c => exists q, c = Num q) l ->
  Sorted average_le l -> Sorted num_le l.
Proof.
  intros Hall Hs. induction Hs as [|c l Hs IH Hd]; constructor.
  - apply IH. now inversion Hall.
  - inversion Hall as [|? ? [x ->] Hl]; subst.
    destruct Hd as [|d l Hcd]; constructor.
    inversion Hl as [|? ? [y ->] _]; subst.
    exists x, y. repeat split. exact Hcd.
Qed.

(** A driver with a timed row has a mean. *)
Lemma agg_average_time_Num {F : Float64} (df : DataFrame) (r : Row) (q : Q) :
  In r (rows df) -> row_Time r = Num q ->
  exists m,
    agg_average_time
      (agg (combine (col_Driver df) (col_Time df)) (key_of (row_Driver r))) =
    Num m.
Proof.
  intros Hr Hq. simpl. rewrite group_times_driver_rows.
  apply (Series_mean_Num _ q). rewrite <- Hq. apply in_map.
  unfold driver_rows. apply filter_In. split; [assumption|].
  now destruct (cell_dec (key_of (row_Driver r)) (key_of (row_Driver r))).
Qed.

Lemma every_driver_timed_Num {F : Float64} (df : DataFrame) (a : AggRow) :
  every_driver_timed df ->
  In a (map (agg (combine (col_Driver df) (col_Time df)))
            (group_keys (col_Driver df))) ->
  exists m, agg_average_time a = Num m.
Proof.
  intros Hall Ha. apply in_map_iff in Ha as (k & <- & Hk).
  apply group_keys_In, keys_In in Hk as (c & Hc & Hn & <-).
  unfold col_Driver in Hc. apply in_map_iff in Hc as (r & <- & Hr).
  destruct (Hall r Hr Hn) as (r' & q & Hr' & Hkey & Hq).
  rewrite <- Hkey. now apply (agg_average_time_Num df r' q).
Qed.

(** C5 (as stated) fails.  A file whose [Driver] cells are all blank passes
    [validate_data] and [transform] raises on it, so there are no ranks at
    all; and on a file where a driver has no time, the [average_time] column
    in rank order ends with a missing value, which no number is below. *)
Lemma rank_order_with_blank_cells :
  validate_data blank_drivers_data = Return true /\
  @transform exact_Float64 insertion_SortValues
             (mkProcessor "blank_drivers.csv" (Some blank_drivers_data) None) =
  (Raise (IndexError "single positional indexer is out-of-bounds"),
   mkProcessor "blank_drivers.csv" (Some blank_drivers_data) None) /\
  validate_data untimed_driver_data = Return true /\
  exists res self',
    @transform exact_Float64 insertion_SortValues
               (mkProcessor "untimed_driver.csv" (Some untimed_driver_data) None) =
    (Return res, self') /\
    map Driver res = [Str "Hamilton"; Str "Leclerc"] /\
    map rank res = [1; 2]%nat /\
    map average_time res = [Num 4.320; NaN] /\
    ~ Sorted num_le (map average_time res).
Proof.
  split; [reflexivity|]. split; [reflexivity|]. split; [reflexivity|].
  eexists _, _. split; [vm_compute; reflexivity|].
  split; [reflexivity|]. split; [reflexivity|]. split; [reflexivity|].
  intros Hs. simpl in Hs. inversion Hs as [|? ? _ Hd]; subst.
  inversion Hd as [|? ? (x & y & _ & Hy & _)]; subst. discriminate.
Qed.

(** C5 (as amended): on every valid input with a driver, [transform] returns
    a frame whose ranks are exactly 1, 2, ..., K in that order, K being the
    number of distinct drivers, and whose [average_time] column read in rank
    order never decreases, the drivers without a time coming last; when
    every driver has a time the column holds numbers only. *)
Theorem rank_dense_average_time_ascending {F : Float64} `{SortValues}
        (self : F1LapTimesProcessor) (df : DataFrame) :
  data self = Some df -> validate_data df = Return true -> has_driver df ->
  exists res self',
    transform self = (Return res, self') /\
    results self' = Some res /\
    map rank res = seq 1 (nunique (col_Driver df)) /\
    NoDup (map rank res) /\
    Sorted average_le (map average_time res) /\
    (every_driver_timed df -> Sorted num_le (map average_time res)).
Proof.
  intros Hdata Hvalid Hdrv.
  destruct (transform_valid self df Hdata Hvalid Hdrv)
    as (g & Hgdef & Hg & _ & Hlen & Htr).
  exists (ranked g), (mkProcessor (input_file self) (Some df) (Some (ranked g))).
  assert (Hrank : map rank (ranked g) = seq 1 (nunique (col_Driver df))).
  { rewrite ranked_rank. now f_equal. }
  repeat split; try assumption.
  - rewrite Hrank. apply seq_NoDup.
  - apply ranked_average_time_Sorted.
  - intros Hall. apply Sorted_num_le; [|apply ranked_average_time_Sorted].
    rewrite ranked_average_time, map_map. apply Forall_forall.
    intros c Hc. apply in_map_iff in Hc as (a & <- & Ha).
    assert (Hag : In a g).
    { eapply Permutation_in;
        [apply Permutation_sym, sort_values_Permutation|exact Ha]. }
    subst g. destruct (every_driver_timed_Num df a Hall Hag) as [m ->].
    simpl. eauto.
Qed.

Lemma rank_dense_average_time_ascending_witness :
  exists res self',
    @transform exact_Float64 insertion_SortValues
               (mkProcessor "untimed_driver.csv" (Some untimed_driver_data) None) =
    (Return res, self') /\
    results self' = Some res /\
    map rank res = seq 1 (nunique (col_Driver untimed_driver_data)) /\
    NoDup (map rank res) /\
    Sorted average_le (map average_time res) /\
    (every_driver_timed untimed_driver_data -> Sorted num_le (map average_time res)).
Proof.
  apply (@rank_dense_average_time_ascending exact_Float64 insertion_SortValues
           (mkProcessor "untimed_driver.csv" (Some untimed_driver_data) None)
           untimed_driver_data);
    [reflexivity|reflexivity|].
  exists (mkRow (Str "Hamilton") (Num 4.32)).
  split; [simpl; auto|discriminate].
Defined.

(** C6 (as stated) fails: of two rows of one driver, the second with a blank
    [Time] cell, ['count'] counts one, so the lap counts add up to 1 on an
    input of 2 rows. *)
Lemma lap_count_skips_blank_cells :
  validate_data missing_time_data = Return true /\
  length (rows missing_time_data) = 2%nat /\
  exists res self',
    @transform exact_Float64 insertion_SortValues
               (mkProcessor "missing_time.csv" (Some missing_time_data) None) =
    (Return res, self') /\
    map Driver res = [Str "Hamilton"] /\
    map lap_count res = [1%nat] /\
    list_sum (map lap_count res) <> length (rows missing_time_data).
Proof.
  split; [reflexivity|]. split; [reflexivity|].
  eexists _, _. split; [vm_compute; reflexivity|].
  split; [reflexivity|]. split; [reflexivity|]. simpl. discriminate.
Qed.

(** C6 (as amended): on every valid input with a driver the [lap_count]
    column of the frame [transform] returns adds up to the number of rows
    that have both a driver and a time, which is the number of rows of the
    input when no cell is blank. *)
Theorem lap_count_total {F : Float64} `{SortValues}
        (self : F1LapTimesProcessor) (df : DataFrame) :
  data self = Some df -> validate_data df = Return true -> has_driver df ->
  exists res self',
    transform self = (Return res, self') /\
    list_sum (map lap_count res) = length (recorded_laps df) /\
    (no_blank_cell df -> list_sum (map lap_count res) = length (rows df)).
Proof.
  intros Hdata Hvalid Hdrv.
  destruct (transform_valid self df Hdata Hvalid Hdrv)
    as (g & Hgdef & Hg & _ & Hlen & Htr).
  exists (ranked g), (mkProcessor (input_file self) (Some df) (Some (ranked g))).
  split; [assumption|].
  assert (Hsum : list_sum (map lap_count (ranked g)) = length (recorded_laps df)).
  { rewrite ranked_lap_count.
    rewrite <- (Permutation_list_sum
                  (Permutation_map agg_lap_count (sort_values_Permutation g))).
    subst g. apply agg_lap_count_sum. }
  split; [assumption|].
  intros Hall. rewrite Hsum. unfold recorded_laps. f_equal.
  apply forallb_filter_id. apply forallb_forall. intros r Hr.
  destruct (Hall r Hr) as [HD HT].
  destruct (row_Driver r), (row_Time r); simpl; congruence.
Qed.

Lemma lap_count_total_witness :
  exists res self',
    @transform exact_Float64 insertion_SortValues
               (mkProcessor "missing_time.csv" (Some missing_time_data) None) =
    (Return res, self') /\
    list_sum (map lap_count res) = length (recorded_laps missing_time_data) /\
    (no_blank_cell missing_time_data ->
     list_sum (map lap_count res) = length (rows missing_time_data)).
Proof.
  apply (@lap_count_total exact_Float64 insertion_SortValues
           (mkProcessor "missing_time.csv" (Some missing_time_data) None)
           missing_time_data);
    [reflexivity|reflexivity|].
  exists (mkRow (Str "Hamilton") (Num 4.32)).
  split; [simpl; auto|discriminate].
Defined.

(** The row of rank 1 is the first row and the only one of that rank. *)
Lemma rank_one_first (res : list DriverStats) (K : nat) (r : DriverStats) :
  map rank res = seq 1 K -> In r res -> rank r = 1%nat ->
  nth_error res 0 = Some r.
Proof.
  intros Hrank Hin Hr.
  apply In_nth_error in Hin as [i Hi].
  assert (Hri : nth_error (map rank res) i = Some (rank r))
    by now apply map_nth_error.
  rewrite Hrank in Hri.
  assert (Hlt : (i < K)%nat).
  { rewrite <- (length_seq K 1). apply nth_error_Some. congruence. }
  rewrite (nth_error_nth' _ 0%nat) in Hri by now rewrite length_seq.
  rewrite seq_nth in Hri by assumption.
  assert (i = 0%nat) by (inversion Hri; lia).
  now subst i.
Qed.

(** C7 (as stated) fails.  On a file whose [Driver] cells are all blank
    [transform] raises and no driver has rank 1; on a file whose [Time]
    cells are all blank the driver of rank 1 has no [average_time], and the
    minimum of the column is missing too. *)
Lemma rank_one_with_blank_cells :
  validate_data blank_drivers_data = Return true /\
  fst (@transform exact_Float64 insertion_SortValues
         (mkProcessor "blank_drivers.csv" (Some blank_drivers_data) None)) =
  Raise (IndexError "single positional indexer is out-of-bounds") /\
  validate_data blank_times_data = Return true /\
  exists res self',
    @transform exact_Float64 insertion_SortValues
               (mkProcessor "blank_times.csv" (Some blank_times_data) None) =
    (Return res, self') /\
    res = [mkDriverStats (Str "Hamilton") NaN NaN 0 1] /\
    Series.min (map average_time res) = NaN /\
    ~ exists r1 q, In r1 res /\ rank r1 = 1%nat /\ average_time r1 = Num q.
Proof.
  split; [reflexivity|]. split; [reflexivity|]. split; [reflexivity|].
  eexists _, _. split; [vm_compute; reflexivity|].
  split; [reflexivity|]. split; [reflexivity|].
  intros (r1 & q & [<-|[]] & _ & Hq). discriminate.
Qed.

(** C7 (as amended): on every valid input in which some row has a driver and
    a time, the row of rank 1 of the frame [transform] returns carries a
    number as [average_time] (the mean rounded to three decimals), and that
    number is the minimum of the column, as
    [results['average_time'].min()] computes it: no driver has a smaller
    one. *)
Theorem rank_one_has_min_average_time {F : Float64} `{SortValues}
        (self : F1LapTimesProcessor) (df : DataFrame) :
  data self = Some df -> validate_data df = Return true -> has_lap df ->
  exists res self' r1 q,
    transform self = (Return res, self') /\
    In r1 res /\ rank r1 = 1%nat /\
    (forall r, In r res -> rank r = 1%nat -> r = r1) /\
    average_time r1 = Num q /\
    (exists m, Series.min (map average_time res) = Num m /\ m == q) /\
    (forall r x, In r res -> average_time r = Num x -> q <= x).
Proof.
  intros Hdata Hvalid (r0 & q0 & Hr0 & Hd0 & Hq0).
  assert (Hdrv : has_driver df) by now exists r0.
  destruct (transform_valid self df Hdata Hvalid Hdrv)
    as (g & Hgdef & Hg & Hne & _ & Htr).
  pose proof (ranked_rank g) as Hrank.
  pose proof (ranked_average_time g) as Havg.
  pose proof (sort_values_StronglySorted g) as Hsorted.
  pose proof (ranked_length g) as Hlen.
  assert (Hlen' : length (sort_values g) = length g)
    by (symmetry; apply Permutation_length, sort_values_Permutation).
  (* some row of the aggregated frame has a mean *)
  destruct (agg_average_time_Num df r0 q0 Hr0 Hq0) as [m0 Hm0].
  assert (Hin0 : In (agg (combine (col_Driver df) (col_Time df))
                         (key_of (row_Driver r0))) (sort_values g)).
  { eapply Permutation_in; [apply sort_values_Permutation|].
    subst g. apply in_map. apply group_keys_In, keys_In.
    exists (row_Driver r0). repeat split; [|assumption].
    unfold col_Driver. now apply in_map. }
  destruct (ranked g) as [|r1 res] eqn:Hres.
  { exfalso. apply Hne. now apply length_zero_iff_nil. }
  destruct (sort_values g) as [|a l] eqn:Hsort.
  { simpl in Hlen'. rewrite <- Hlen' in Hlen. discriminate. }
  simpl in Havg. injection Havg as Hr1 Hrest.
  apply StronglySorted_inv in Hsorted as [_ Hall].
  rewrite Forall_forall in Hall.
  (* the first row of the sorted frame has one *)
  assert (Ha : exists x, agg_average_time a = Num x).
  { destruct Hin0 as [->|Hin0]; [eauto|].
    specialize (Hall _ Hin0). rewrite Hm0 in Hall.
    destruct (agg_average_time a); simpl in Hall; [eauto|contradiction..]. }
  destruct Ha as [x Hx].
  assert (Hq : average_time r1 = Num (float_round 3 x)).
  { rewrite Hr1, Hx. reflexivity. }
  assert (Hrest' : Forall (average_le (Num (float_round 3 x)))
                          (map average_time res)).
  { rewrite Hrest, map_map. apply Forall_forall. intros c Hc.
    apply in_map_iff in Hc as (b & <- & Hb).
    change (Num (float_round 3 x)) with (Series.round_cell 3 (Num x)).
    apply round_cell_monotone. rewrite <- Hx. now apply Hall. }
  assert (Hrank1 : rank r1 = 1%nat).
  { destruct g; [congruence|]. simpl in Hrank. now injection Hrank. }
  exists (r1 :: res), (mkProcessor (input_file self) (Some df) (Some (r1 :: res))),
         r1, (float_round 3 x).
  repeat split.
  - assumption.
  - now left.
  - assumption.
  - intros r Hin Hr.
    pose proof (rank_one_first _ _ _ Hrank Hin Hr) as Hnth.
    simpl in Hnth. congruence.
  - assumption.
  - change (map average_time (r1 :: res))
      with (average_time r1 :: map average_time res).
    rewrite Hq. now apply Series_min_first.
  - intros r y [<-|Hin] Hy.
    + rewrite Hq in Hy. injection Hy as <-. apply Qle_refl.
    + rewrite Forall_forall in Hrest'.
      specialize (Hrest' (average_time r) (in_map _ _ _ Hin)).
      rewrite Hy in Hrest'. exact Hrest'.
Qed.

Lemma rank_one_has_min_average_time_witness :
  exists res self' r1 q,
    @transform exact_Float64 insertion_SortValues
               (mkProcessor "untimed_driver.csv" (Some untimed_driver_data) None) =
    (Return res, self') /\
    In r1 res /\ rank r1 = 1%nat /\
    (forall r, In r res -> rank r = 1%nat -> r = r1) /\
    average_time r1 = Num q /\
    (exists m, Series.min (map average_time res) = Num m /\ m == q) /\
    (forall r x, In r res -> average_time r = Num x -> q <= x).
Proof.
  apply (@rank_one_has_min_average_time exact_Float64 insertion_SortValues
           (mkProcessor "untimed_driver.csv" (Some untimed_driver_data) None)
           untimed_driver_data);
    [reflexivity|reflexivity|].
  exists (mkRow (Str "Hamilton") (Num 4.32)), 4.32.
  split; [simpl; auto|]. split; [discriminate|reflexivity].
Defined.

(* ================================================================== *)
(** * The top-N view *)

Lemma head_all {A : Type} (l : list A) (n : Z) :
  (Z.of_nat (length l) <= n)%Z -> head l n = l.
Proof.
  intros Hn. unfold head.
  destruct (0 <=? n)%Z eqn:E; [|apply Z.leb_gt in E; lia].
  apply firstn_all2. lia.
Qed.

Lemma head_firstn {A : Type} (l : list A) (n : Z) :
  (0 <= n)%Z -> head l n = firstn (Z.to_nat n) l.
Proof.
  intros Hn. unfold head. apply Z.leb_le in Hn. now rewrite Hn.
Qed.

Lemma head_negative {A : Type} (l : list A) (n : Z) :
  (n < 0)%Z -> head l n = firstn (length l - Z.to_nat (- n)) l.
Proof.
  intros Hn. unfold head. apply Z.leb_gt in Hn. now rewrite Hn.
Qed.

Lemma head_length {A : Type} (l : list A) (n : Z) :
  (0 <= n)%Z -> Z.of_nat (length (head l n)) = Z.min n (Z.of_nat (length l)).
Proof.
  intros Hn. rewrite head_firstn by assumption. rewrite length_firstn. lia.
Qed.

Lemma get_top_n_results (self : F1LapTimesProcessor) (res : list DriverStats) (n : Z) :
  results self = Some res -> get_top_n n self = (Return (head res n), self).
Proof.
  intros Hres. unfold get_top_n. now rewrite Hres.
Qed.

Lemma count_notna_length (s : list cell) :
  (forall c, In c s -> c <> NaN) -> Series.count s = length s.
Proof.
  intros H. unfold Series.count. f_equal. apply forallb_filter_id.
  apply forallb_forall. intros c Hc. specialize (H c Hc).
  destruct c; simpl; congruence.
Qed.

(** X14: on every valid input with a driver, K being the number of distinct
    drivers, the top-N view holds all K rows of the ranked frame for N at
    least K, and its first N rows for a count N below K. *)
Theorem get_top_n_after_transform {F : Float64} `{SortValues}
      (self : F1LapTimesProcessor) (df : DataFrame) (n : Z) :
  data self = Some df -> validate_data df = Return true -> has_driver df ->
  exists res self',
    transform self = (Return res, self') /\
    length res = nunique (col_Driver df) /\
    ((Z.of_nat (nunique (col_Driver df)) <= n)%Z ->
     get_top_n n self' = (Return res, self')) /\
    ((0 <= n < Z.of_nat (nunique (col_Driver df)))%Z ->
     get_top_n n self' = (Return (firstn (Z.to_nat n) res), self') /\
     length (firstn (Z.to_nat n) res) = Z.to_nat n).
Proof.
  intros Hdata Hvalid Hdrv.
  destruct (transform_valid self df Hdata Hvalid Hdrv)
    as (g & Hgdef & Hg & _ & Hlen & Htr).
  exists (ranked g), (mkProcessor (input_file self) (Some df) (Some (ranked g))).
  assert (Hlen' : length (ranked g) = nunique (col_Driver df))
    by now rewrite ranked_length.
  repeat split; try assumption.
  - intros Hn. rewrite (get_top_n_results _ (ranked g)) by reflexivity.
    rewrite head_all; [reflexivity|lia].
  - rewrite (get_top_n_results _ (ranked g)) by reflexivity.
    rewrite head_firstn; [reflexivity|lia].
  - rewrite length_firstn. lia.
Qed.

Lemma get_top_n_after_transform_witness :
  exists res self',
    @transform exact_Float64 insertion_SortValues
               (mkProcessor "test_lap_times.csv" (Some test_data) None) =
    (Return res, self') /\
    length res = nunique (col_Driver test_data) /\
    ((Z.of_nat (nunique (col_Driver test_data)) <= 5)%Z ->
     get_top_n 5 self' = (Return res, self')) /\
    ((0 <= 5 < Z.of_nat (nunique (col_Driver test_data)))%Z ->
     get_top_n 5 self' = (Return (firstn (Z.to_nat 5) res), self') /\
     length (firstn (Z.to_nat 5) res) = Z.to_nat 5).
Proof.
  apply (@get_top_n_after_transform exact_Float64 insertion_SortValues
           (mkProcessor "test_lap_times.csv" (Some test_data) None) test_data 5);
    [reflexivity|reflexivity|].
  exists (mkRow (Str "Hamilton") (Num 4.32)).
  split; [simpl; auto|discriminate].
Defined.

(** C8, at the input on which the code fails.  A file whose only row has a
    blank [Driver] cell passes [validate_data] and has K = 0 distinct
    drivers; the claim asks for a top-N view of 0 rows.  [transform] raises
    [IndexError] at its log line, before it stores the ranked frame, so
    [get_top_n] raises too and [run_pipeline] fails. *)
Theorem top_n_of_blank_drivers :
  extract (fun _ => Return blank_drivers_data) (__init__ "blank_drivers.csv") =
  (Return blank_drivers_data,
   mkProcessor "blank_drivers.csv" (Some blank_drivers_data) None) /\
  nunique (col_Driver blank_drivers_data) = 0%nat /\
  @transform exact_Float64 insertion_SortValues
             (mkProcessor "blank_drivers.csv" (Some blank_drivers_data) None) =
  (Raise (IndexError "single positional indexer is out-of-bounds"),
   mkProcessor "blank_drivers.csv" (Some blank_drivers_data) None) /\
  get_top_n default_top_n
            (mkProcessor "blank_drivers.csv" (Some blank_drivers_data) None) =
  (Raise (ValueError "No results available. Call transform() first."),
   mkProcessor "blank_drivers.csv" (Some blank_drivers_data) None) /\
  fst (@run_pipeline exact_Float64 insertion_SortValues
         (fun _ => Return blank_drivers_data)
         default_top_n (__init__ "blank_drivers.csv")) =
  Raise (IndexError "single positional indexer is out-of-bounds").
Proof. repeat split. Qed.

(** C9 (as stated) fails: of two rows, the first with a blank [Driver] cell,
    [Driver.count()] counts one, so [total_laps_analyzed] is 1 on an input of
    2 rows. *)
Lemma total_laps_skips_blank_drivers :
  validate_data blank_driver_row_data = Return true /\
  length (rows blank_driver_row_data) = 2%nat /\
  exists res self' json,
    @transform exact_Float64 insertion_SortValues
               (mkProcessor "blank_driver_row.csv" (Some blank_driver_row_data) None) =
    (Return res, self') /\
    load_json default_top_n self' = (Return json, self') /\
    total_drivers_analyzed json = 1%nat /\
    total_laps_analyzed json = 1%nat /\
    total_laps_analyzed json <> length (rows blank_driver_row_data).
Proof.
  split; [reflexivity|]. split; [reflexivity|].
  eexists _, _, _. split; [vm_compute; reflexivity|].
  split; [reflexivity|]. split; [reflexivity|]. split; [reflexivity|].
  simpl. discriminate.
Qed.

(** C9 (as amended): on every valid input with a driver and for every top-N
    argument, the dictionary [load_json] writes holds
    [total_drivers_analyzed] = K, the number of distinct drivers, and
    [total_laps_analyzed] = the number of input rows whose [Driver] cell is
    not blank (all rows when none is), whatever N is; [top_drivers] is the
    top-N view, of min(N, K) entries for a count N. *)
Theorem load_json_totals {F : Float64} `{SortValues}
        (self : F1LapTimesProcessor) (df : DataFrame) (n : Z) :
  data self = Some df -> validate_data df = Return true -> has_driver df ->
  exists res self' json,
    transform self = (Return res, self') /\
    load_json n self' = (Return json, self') /\
    total_drivers_analyzed json = nunique (col_Driver df) /\
    total_laps_analyzed json =
      length (filter (fun r => notna (row_Driver r)) (rows df)) /\
    ((forall r, In r (rows df) -> row_Driver r <> NaN) ->
     total_laps_analyzed json = length (rows df)) /\
    top_drivers json = head res n /\
    ((0 <= n)%Z ->
     Z.of_nat (length (top_drivers json)) =
     Z.min n (Z.of_nat (nunique (col_Driver df)))).
Proof.
  intros Hdata Hvalid Hdrv.
  destruct (transform_valid self df Hdata Hvalid Hdrv)
    as (g & Hgdef & Hg & _ & Hlen & Htr).
  assert (Hlen' : length (ranked g) = nunique (col_Driver df))
    by now rewrite ranked_length.
  exists (ranked g), (mkProcessor (input_file self) (Some df) (Some (ranked g))),
         (mkResultDict (head (ranked g) n) (length (ranked g))
                       (Series.count (col_Driver df))).
  repeat split; try assumption.
  - simpl. unfold Series.count, col_Driver.
    induction (rows df) as [|r rs IH]; simpl; [reflexivity|].
    destruct (notna (row_Driver r)); simpl; now rewrite IH.
  - intros Hall. simpl. rewrite count_notna_length.
    + unfold col_Driver. apply length_map.
    + intros c Hc. unfold col_Driver in Hc.
      apply in_map_iff in Hc as (r & <- & Hr). now apply Hall.
  - intros Hn. simpl. rewrite head_length by assumption. now rewrite Hlen'.
Qed.

Lemma load_json_totals_witness :
  exists res self' json,
    @transform exact_Float64 insertion_SortValues
               (mkProcessor "blank_driver_row.csv" (Some blank_driver_row_data) None) =
    (Return res, self') /\
    load_json 2 self' = (Return json, self') /\
    total_drivers_analyzed json = nunique (col_Driver blank_driver_row_data) /\
    total_laps_analyzed json =
      length (filter (fun r => notna (row_Driver r)) (rows blank_driver_row_data)) /\
    ((forall r, In r (rows blank_driver_row_data) -> row_Driver r <> NaN) ->
     total_laps_analyzed json = length (rows blank_driver_row_data)) /\
    top_drivers json = head res 2 /\
    ((0 <= 2)%Z ->
     Z.of_nat (length (top_drivers json)) =
     Z.min 2 (Z.of_nat (nunique (col_Driver blank_driver_row_data)))).
Proof.
  apply (@load_json_totals exact_Float64 insertion_SortValues
           (mkProcessor "blank_driver_row.csv" (Some blank_driver_row_data) None)
           blank_driver_row_data 2);
    [reflexivity|reflexivity|].
  exists (mkRow (Str "Hamilton") (Num 4.45)).
  split; [simpl; auto|discriminate].
Defined.


(** C10: on an object that holds a ranked frame of K rows, [get_top_n] with
    n <= 0 raises nothing: it returns no row for n = 0, and for a negative n
    the first K - |n| rows, that is all rows but the last |n|, and no row once
    |n| reaches K. *)
Theorem get_top_n_nonpositive
        (self : F1LapTimesProcessor) (res : list DriverStats) (n : Z) :
  results self = Some res -> (n <= 0)%Z ->
  exists top,
    get_top_n n self = (Return top, self) /\
    (n = 0%Z -> top = []) /\
    ((n < 0)%Z ->
     top = firstn (length res - Z.to_nat (- n)) res /\
     exists dropped,
       res = (top ++ dropped)%list /\
       length dropped = Nat.min (Z.to_nat (- n)) (length res)) /\
    ((Z.of_nat (length res) <= - n)%Z -> top = []).
Proof.
  intros Hres Hn. exists (head res n).
  split; [now apply get_top_n_results|].
  split; [intros ->; reflexivity|]. split.
  - intros Hneg. rewrite head_negative by assumption.
    split; [reflexivity|].
    exists (skipn (length res - Z.to_nat (- n)) res).
    split; [symmetry; apply firstn_skipn|].
    rewrite length_skipn. lia.
  - intros Hall. destruct (Z.eq_dec n 0) as [->|Hne]; [reflexivity|].
    rewrite head_negative by lia.
    replace (length res - Z.to_nat (- n))%nat with 0%nat by lia.
    reflexivity.
Qed.

Lemma get_top_n_nonpositive_witness :
  exists top,
    get_top_n (-1)
      (mkProcessor "test_lap_times.csv" (Some test_data) (Some test_results)) =
    (Return top,
     mkProcessor "test_lap_times.csv" (Some test_data) (Some test_results)) /\
    ((-1)%Z = 0%Z -> top = []) /\
    ((-1 < 0)%Z ->
     top = firstn (length test_results - Z.to_nat (- (-1))) test_results /\
     exists dropped,
       test_results = (top ++ dropped)%list /\
       length dropped = Nat.min (Z.to_nat (- (-1))) (length test_results)) /\
    ((Z.of_nat (length test_results) <= - (-1))%Z -> top = []).
Proof.
  apply (get_top_n_nonpositive
           (mkProcessor "test_lap_times.csv" (Some test_data) (Some test_results))
           test_results (-1)).
  - reflexivity.
  - lia.
Defined.

(* ================================================================== *)
(** * Sorting rows whose keys differ *)

Lemma average_le_refl (a : cell) : average_le a a.
Proof. destruct a; simpl; auto. apply Qle_refl. Qed.

Lemma distinct_averages_injective (l : list AggRow) :
  distinct_averages l = true -> average_injective l.
Proof.
  induction l as [|a l IH]; simpl; intros H.
  - split; [constructor|intros ? ? []].
  - apply andb_true_iff in H as [Ha Hl]. destruct (IH Hl) as [Hnd Hinj].
    rewrite forallb_forall in Ha.
    assert (Hdiff : forall b, In b l ->
                      average_le (agg_average_time a) (agg_average_time b) ->
                      average_le (agg_average_time b) (agg_average_time a) ->
                      False).
    { intros b Hb Hab Hba. apply Ha in Hb. apply negb_true_iff in Hb.
      apply average_leb_le in Hab, Hba. unfold row_leb in Hb.
      rewrite Hab, Hba in Hb. discriminate. }
    split.
    + constructor; [|assumption]. intros Hin.
      apply (Hdiff a Hin); apply average_le_refl.
    + intros x y [<-|Hx] [<-|Hy] Hxy Hyx; auto.
      * exfalso. now apply (Hdiff y Hy).
      * exfalso. now apply (Hdiff x Hx).
Qed.

Lemma average_injective_Permutation (l l' : list AggRow) :
  Permutation l l' -> average_injective l -> average_injective l'.
Proof.
  intros Hp [Hnd Hinj]. split.
  - eapply Permutation_NoDup; eassumption.
  - intros a b Ha Hb. apply Hinj; eapply Permutation_in; try eassumption;
      now apply Permutation_sym.
Qed.

Lemma average_injective_strict (l : list AggRow) :
  average_injective l ->
  StronglySorted (fun a b => average_le (agg_average_time a) (agg_average_time b)) l ->
  StronglySorted (fun a b => ~ average_le (agg_average_time b) (agg_average_time a)) l.
Proof.
  intros Hinj Hs. induction Hs as [|a l Hs IH Hall].
  - constructor.
  - destruct Hinj as [Hnd Hinj]. inversion Hnd as [|? ? Hnotin Hnd']; subst.
    constructor.
    + apply IH. split; [assumption|].
      intros x y Hx Hy. apply Hinj; now right.
    + rewrite Forall_forall in *. intros b Hb Hba.
      apply Hnotin.
      rewrite (Hinj a b (or_introl eq_refl) (or_intror Hb) (Hall b Hb) Hba).
      assumption.
Qed.

Lemma StronglySorted_strict_unique (l1 l2 : list AggRow) :
  StronglySorted (fun a b => ~ average_le (agg_average_time b) (agg_average_time a)) l1 ->
  StronglySorted (fun a b => ~ average_le (agg_average_time b) (agg_average_time a)) l2 ->
  Permutation l1 l2 -> l1 = l2.
Proof.
  intros H1. revert l2. induction H1 as [|a l1 Hs1 IH Hall1]; intros l2 H2 Hp.
  - apply Permutation_nil in Hp. now subst.
  - destruct l2 as [|b l2]; [apply Permutation_sym, Permutation_nil in Hp; discriminate|].
    apply StronglySorted_inv in H2 as [Hs2 Hall2].
    rewrite Forall_forall in Hall1, Hall2.
    assert (Hab : a = b).
    { assert (Ha : In a (b :: l2)) by (eapply Permutation_in; [exact Hp|now left]).
      assert (Hb : In b (a :: l1))
        by (eapply Permutation_in; [apply Permutation_sym; exact Hp|now left]).
      destruct Ha as [Ha|Ha]; [now symmetry|].
      destruct Hb as [Hb|Hb]; [assumption|].
      exfalso. destruct (average_le_total (agg_average_time a) (agg_average_time b)).
      - now apply (Hall2 a Ha).
      - now apply (Hall1 b Hb). }
    subst b. f_equal. apply IH; [assumption|].
    eapply Permutation_cons_inv. exact Hp.
Qed.

(** Whatever the sort does on equal keys, it has one possible result on rows
    whose keys differ: the one of insertion sort. *)
Lemma sort_values_distinct `{SortValues} (g : list AggRow) :
  distinct_averages g = true -> sort_values g = isort row_leb g.
Proof.
  intros Hd. apply distinct_averages_injective in Hd.
  apply StronglySorted_strict_unique.
  - apply average_injective_strict; [|apply sort_values_StronglySorted].
    eapply average_injective_Permutation; [apply sort_values_Permutation|assumption].
  - apply average_injective_strict.
    + eapply average_injective_Permutation; [apply isort_Permutation|assumption].
    + apply (@sort_values_StronglySorted insertion_SortValues).
  - eapply perm_trans; [apply Permutation_sym, sort_values_Permutation|].
    apply isort_Permutation.
Qed.




(* ================================================================== *)
(** * The concrete scenario *)

(** C1: on the eight rows of the unit tests the pipeline stores, whatever
    the sort does on ties, Verstappen with [average_time] 4.293,
    [fastest_time] 4.28 and rank 1, Hamilton with 4.383 and rank 2, Leclerc
    with 4.49 and rank 3, and the dictionary of [load_json] counts 8 laps and
    3 drivers.  The means and their roundings are those of exact
    arithmetic. *)
Theorem test_data_scenario `{SortValues} :
  exists self1 res self2 json,
    extract test_files (__init__ "test_lap_times.csv") = (Return test_data, self1) /\
    transform self1 = (Return res, self2) /\
    res = [mkDriverStats (Str "Verstappen") (Num 4.293) (Num 4.280) 3 1;
           mkDriverStats (Str "Hamilton") (Num 4.383) (Num 4.320) 3 2;
           mkDriverStats (Str "Leclerc") (Num 4.490) (Num 4.480) 2 3] /\
    Forall2 (fun c q => exists q', c = Num q' /\ q' == q)
            (map average_time res) [4.293; 4.383; 4.49] /\
    Forall2 (fun c q => exists q', c = Num q' /\ q' == q)
            (map fastest_time res) [4.28; 4.32; 4.48] /\
    load_json default_top_n self2 = (Return json, self2) /\
    top_drivers json = res /\
    total_laps_analyzed json = 8%nat /\
    total_drivers_analyzed json = 3%nat /\
    run_pipeline test_files default_top_n (__init__ "test_lap_times.csv") =
    (Return (res, json), self2).
Proof.
  set (self1 := mkProcessor "test_lap_times.csv" (Some test_data) None).
  assert (Hdrv : has_driver test_data).
  { exists (mkRow (Str "Hamilton") (Num 4.32)).
    split; [simpl; auto|discriminate]. }
  destruct (transform_valid self1 test_data eq_refl eq_refl Hdrv)
    as (g & Hgdef & Hg & _ & _ & Htr).
  assert (Hres : ranked g = test_results).
  { unfold ranked. rewrite sort_values_distinct; subst g; vm_compute; reflexivity. }
  rewrite Hres in Htr.
  eexists self1, _, _, _.
  split; [reflexivity|]. split; [exact Htr|].
  split; [reflexivity|].
  split; [repeat constructor; eexists; (split; [reflexivity|reflexivity])|].
  split; [repeat constructor; eexists; (split; [reflexivity|reflexivity])|].
  split; [reflexivity|].
  split; [reflexivity|]. split; [reflexivity|]. split; [reflexivity|].
  unfold run_pipeline, bind.
  change (extract test_files (__init__ "test_lap_times.csv"))
    with (Return test_data, self1).
  cbv iota beta. rewrite Htr. reflexivity.
Qed.

(* ================================================================== *)
(** * Ties *)


(** The same order under every sort, in exact arithmetic: the two means
    differ. *)
Lemma close_means_any_sort `{SortValues} :
  exists res self',
    transform (mkProcessor "close_means.csv" (Some close_means_data) None) =
    (Return res, self') /\
    map Driver res = [Str "Bottas"; Str "Alonso"] /\
    map average_time res = [Num 4.293; Num 4.293].
Proof.
  assert (Hdrv : has_driver close_means_data).
  { exists (mkRow (Str "Alonso") (Num 4.2934)).
    split; [simpl; auto|discriminate]. }
  destruct (transform_valid
              (mkProcessor "close_means.csv" (Some close_means_data) None)
              close_means_data eq_refl eq_refl Hdrv)
    as (g & Hgdef & Hg & _ & _ & Htr).
  eexists _, _. split; [exact Htr|].
  unfold ranked. rewrite sort_values_distinct by (subst g; vm_compute; reflexivity).
  subst g. split; vm_compute; reflexivity.
Qed.



(** What the contract of [sort_values] leaves open: Norris and Sainz have the
    same mean and the aggregation lists Norris first; insertion sort ranks
    Norris first, the sort that turns ties around ranks Sainz first. *)
Lemma tie_order_depends_on_sort :
  (exists g, groupby_agg equal_means_data = Return g /\
             map agg_Driver g = [Str "Norris"; Str "Sainz"]) /\
  (exists res self',
     @transform exact_Float64 insertion_SortValues
                (mkProcessor "equal_means.csv" (Some equal_means_data) None) =
     (Return res, self') /\
     map Driver res = [Str "Norris"; Str "Sainz"]) /\
  (exists res self',
     @transform exact_Float64 reversing_SortValues
                (mkProcessor "equal_means.csv" (Some equal_means_data) None) =
     (Return res, self') /\
     map Driver res = [Str "Sainz"; Str "Norris"]).
Proof.
  split; [eexists; split; reflexivity|].
  split; eexists _, _; (split; [vm_compute; reflexivity|reflexivity]).
Qed.

(* ================================================================== *)
(** * Further properties of [transform] *)

Lemma count_map_filter (rs : list Row) :
  Series.count (map row_Time rs) =
  length (filter (fun r => notna (row_Time r)) rs).
Proof.
  unfold Series.count. induction rs as [|r rs IH]; simpl; [reflexivity|].
  destruct (notna (row_Time r)); simpl; now rewrite IH.
Qed.

(** X1: on every valid input with a driver the frame [transform] returns has
    exactly one row per distinct driver of the input (blank [Driver] cells
    are no driver), and the [lap_count] of a row is the number of input rows
    of its driver that have a time, at least 1 when no [Time] cell is
    blank. *)
Theorem one_row_per_driver {F : Float64} `{SortValues}
        (self : F1LapTimesProcessor) (df : DataFrame) :
  data self = Some df -> validate_data df = Return true -> has_driver df ->
  exists res self',
    transform self = (Return res, self') /\
    NoDup (map Driver res) /\
    (forall d, In d (map Driver res) <-> In d (keys (col_Driver df))) /\
    (forall r, In r res ->
       lap_count r =
       length (filter (fun r0 => notna (row_Time r0)) (driver_rows df (Driver r))) /\
       ((forall r0, In r0 (rows df) -> row_Time r0 <> NaN) ->
        (1 <= lap_count r)%nat)).
Proof.
  intros Hdata Hvalid Hdrv.
  destruct (transform_valid self df Hdata Hvalid Hdrv)
    as (g & Hgdef & Hg & _ & _ & Htr).
  exists (ranked g), (mkProcessor (input_file self) (Some df) (Some (ranked g))).
  assert (Hperm : Permutation (map Driver (ranked g)) (group_keys (col_Driver df))).
  { rewrite ranked_Driver.
    eapply perm_trans;
      [apply Permutation_map, Permutation_sym, sort_values_Permutation|].
    subst g. rewrite map_map. simpl. now rewrite map_id. }
  split; [assumption|]. split; [|split].
  - eapply Permutation_NoDup; [apply Permutation_sym, Hperm|apply group_keys_NoDup].
  - intros d. rewrite <- group_keys_In. split; intros Hd.
    + eapply Permutation_in; eassumption.
    + eapply Permutation_in; [apply Permutation_sym; eassumption|assumption].
  - intros r Hr. apply ranked_In in Hr as (a & Ha & HD & _ & _ & Hcount).
    subst g. apply in_map_iff in Ha as (k & <- & Hk). simpl in *.
    rewrite HD, Hcount, group_times_driver_rows, count_map_filter.
    split; [reflexivity|]. intros Hall.
    apply group_keys_In, keys_In in Hk as (c & Hc & Hn & Hkey).
    unfold col_Driver in Hc. apply in_map_iff in Hc as (r0 & <- & Hr0).
    assert (Hin : In r0 (filter (fun r1 => notna (row_Time r1)) (driver_rows df k))).
    { apply filter_In. split.
      - unfold driver_rows. apply filter_In. split; [assumption|].
        now destruct (cell_dec (key_of (row_Driver r0)) k).
      - specialize (Hall r0 Hr0). destruct (row_Time r0); simpl; congruence. }
    destruct (filter (fun r1 => notna (row_Time r1)) (driver_rows df k));
      [destruct Hin|simpl; lia].
Qed.

Lemma one_row_per_driver_witness :
  exists res self',
    @transform exact_Float64 insertion_SortValues
               (mkProcessor "test_lap_times.csv" (Some test_data) None) =
    (Return res, self') /\
    NoDup (map Driver res) /\
    (forall d, In d (map Driver res) <-> In d (keys (col_Driver test_data))) /\
    (forall r, In r res ->
       lap_count r =
       length (filter (fun r0 => notna (row_Time r0))
                      (driver_rows test_data (Driver r))) /\
       ((forall r0, In r0 (rows test_data) -> row_Time r0 <> NaN) ->
        (1 <= lap_count r)%nat)).
Proof.
  apply (@one_row_per_driver exact_Float64 insertion_SortValues
           (mkProcessor "test_lap_times.csv" (Some test_data) None) test_data);
    [reflexivity|reflexivity|].
  exists (mkRow (Str "Hamilton") (Num 4.32)).
  split; [simpl; auto|discriminate].
Defined.

(** X15: on a valid input whose [Driver] cells are all blank, which
    [validate_data] accepts and which has no driver, [transform] raises
    [IndexError] at its log line and stores no result, so that [get_top_n]
    on an object without results still raises. *)
Theorem transform_raises_without_driver {F : Float64} `{SortValues}
        (self : F1LapTimesProcessor) (df : DataFrame) (n : Z) :
  data self = Some df -> validate_data df = Return true ->
  (forall r, In r (rows df) -> row_Driver r = NaN) ->
  nunique (col_Driver df) = 0%nat /\
  transform self =
  (Raise (IndexError "single positional indexer is out-of-bounds"), self) /\
  (results self = None ->
   get_top_n n self =
   (Raise (ValueError "No results available. Call transform() first."), self)).
Proof.
  intros Hdata Hvalid Hblank.
  assert (Hno : ~ has_driver df).
  { intros (r & Hr & Hn). now apply Hn, Hblank. }
  split; [|split].
  - rewrite <- group_keys_length.
    destruct (group_keys (col_Driver df)) eqn:E; [reflexivity|].
    exfalso. apply Hno, has_driver_keys. rewrite E. discriminate.
  - now apply (transform_without_driver self df).
  - intros Hres. unfold get_top_n. now rewrite Hres.
Qed.

Lemma transform_raises_without_driver_witness :
  nunique (col_Driver blank_drivers_data) = 0%nat /\
  @transform exact_Float64 insertion_SortValues
             (mkProcessor "blank_drivers.csv" (Some blank_drivers_data) None) =
  (Raise (IndexError "single positional indexer is out-of-bounds"),
   mkProcessor "blank_drivers.csv" (Some blank_drivers_data) None) /\
  (results (mkProcessor "blank_drivers.csv" (Some blank_drivers_data) None) = None ->
   get_top_n 3 (mkProcessor "blank_drivers.csv" (Some blank_drivers_data) None) =
   (Raise (ValueError "No results available. Call transform() first."),
    mkProcessor "blank_drivers.csv" (Some blank_drivers_data) None)).
Proof.
  apply (@transform_raises_without_driver exact_Float64 insertion_SortValues
           (mkProcessor "blank_drivers.csv" (Some blank_drivers_data) None)
           blank_drivers_data 3);
    [reflexivity|reflexivity|].
  intros r [<-|[]]. reflexivity.
Defined.

(* ================================================================== *)
(** * The top-N view cuts the ranking *)

Lemma firstn_seq_min (k start len : nat) :
  firstn k (seq start len) = seq start (Nat.min k len).
Proof.
  revert start len. induction k as [|k IH]; intros start [|len]; simpl;
    try reflexivity.
  now rewrite IH.
Qed.

Lemma skipn_seq_shift (k start len : nat) :
  skipn k (seq start len) = seq (start + k) (len - k).
Proof.
  revert start len. induction k as [|k IH]; intros start [|len]; simpl.
  - reflexivity.
  - now rewrite Nat.add_0_r.
  - reflexivity.
  - rewrite IH. f_equal. lia.
Qed.

Lemma StronglySorted_app_between {A : Type} (R : A -> A -> Prop)
      (l1 l2 : list A) (x y : A) :
  StronglySorted R (l1 ++ l2) -> In x l1 -> In y l2 -> R x y.
Proof.
  induction l1 as [|a l1 IH]; simpl; intros Hs Hx Hy; [destruct Hx|].
  apply StronglySorted_inv in Hs as [Hs Hall].
  destruct Hx as [->|Hx].
  - rewrite Forall_forall in Hall. apply Hall, in_or_app. now right.
  - now apply IH.
Qed.

(** X6: on every valid input with a driver and for every count n >= 0, the
    top-N view cuts the ranked frame in two: the view holds the ranks
    1..min(n, K), and every row it leaves out has a larger rank and comes
    after every row it keeps in the order of [average_time] (ascending,
    missing values last). *)
Theorem top_n_cuts_the_ranking {F : Float64} `{SortValues}
        (self : F1LapTimesProcessor) (df : DataFrame) (n : Z) :
  data self = Some df -> validate_data df = Return true -> has_driver df ->
  (0 <= n)%Z ->
  exists res self' top rest,
    transform self = (Return res, self') /\
    get_top_n n self' = (Return top, self') /\
    res = (top ++ rest)%list /\
    map rank top = seq 1 (Nat.min (Z.to_nat n) (nunique (col_Driver df))) /\
    forall r r', In r top -> In r' rest ->
      (rank r < rank r')%nat /\ average_le (average_time r) (average_time r').
Proof.
  intros Hdata Hvalid Hdrv Hn.
  destruct (transform_valid self df Hdata Hvalid Hdrv)
    as (g & Hgdef & Hg & _ & Hlen & Htr).
  assert (Hrank : map rank (ranked g) = seq 1 (nunique (col_Driver df))).
  { rewrite ranked_rank. now f_equal. }
  pose proof (ranked_average_time_Sorted g) as Hsorted.
  apply Sorted_StronglySorted in Hsorted; [|intros a b c; apply average_le_trans].
  set (res := ranked g) in *. set (k := Z.to_nat n).
  exists res, (mkProcessor (input_file self) (Some df) (Some res)),
         (firstn k res), (skipn k res).
  split; [assumption|]. split.
  { rewrite (get_top_n_results _ res) by reflexivity.
    now rewrite head_firstn. }
  split; [symmetry; apply firstn_skipn|].
  assert (Htop : map rank (firstn k res) =
                 seq 1 (Nat.min k (nunique (col_Driver df)))).
  { now rewrite <- firstn_map, Hrank, firstn_seq_min. }
  split; [assumption|]. intros r r' Hr Hr'. split.
  - assert (H1 : In (rank r) (map rank (firstn k res))) by now apply in_map.
    assert (H2 : In (rank r') (map rank (skipn k res))) by now apply in_map.
    rewrite Htop in H1.
    rewrite <- skipn_map, Hrank, skipn_seq_shift in H2.
    apply in_seq in H1, H2. lia.
  - rewrite <- (firstn_skipn k res), map_app in Hsorted.
    eapply StronglySorted_app_between; [exact Hsorted| |]; now apply in_map.
Qed.

Lemma top_n_cuts_the_ranking_witness :
  exists res self' top rest,
    @transform exact_Float64 insertion_SortValues
               (mkProcessor "test_lap_times.csv" (Some test_data) None) =
    (Return res, self') /\
    get_top_n 2 self' = (Return top, self') /\
    res = (top ++ rest)%list /\
    map rank top = seq 1 (Nat.min (Z.to_nat 2) (nunique (col_Driver test_data))) /\
    forall r r', In r top -> In r' rest ->
      (rank r < rank r')%nat /\ average_le (average_time r) (average_time r').
Proof.
  apply (@top_n_cuts_the_ranking exact_Float64 insertion_SortValues
           (mkProcessor "test_lap_times.csv" (Some test_data) None) test_data 2);
    [reflexivity|reflexivity| |lia].
  exists (mkRow (Str "Hamilton") (Num 4.32)).
  split; [simpl; auto|discriminate].
Defined.

(* ================================================================== *)
(** * [extract] and [run_pipeline] *)

Lemma extract_Raise (read_csv : string -> result DataFrame)
      (self self' : F1LapTimesProcessor) (e : exception) :
  extract read_csv self = (Raise e, self') ->
  self' = self /\
  (read_csv (input_file self) = Raise e \/
   exists df, read_csv (input_file self) = Return df /\ validate_data df = Raise e).
Proof.
  unfold extract, bind, call, set_data, ret.
  destruct (read_csv (input_file self)) as [df|e'].
  - destruct (validate_data df) as [b|e'] eqn:Hvalid; [discriminate|].
    intros H. inversion H; subst. split; [reflexivity|]. right. now exists df.
  - intros H. inversion H; subst. split; [reflexivity|]. now left.
Qed.

(** X7: [extract] is all or nothing.  When the reader raises or the frame
    fails validation, the same exception comes out and the object is left as
    it was; otherwise the frame is returned and stored as [data], and the
    [results] of the object are not touched. *)
Theorem extract_all_or_nothing (read_csv : string -> result DataFrame)
        (self : F1LapTimesProcessor) :
  (forall e, read_csv (input_file self) = Raise e ->
             extract read_csv self = (Raise e, self)) /\
  (forall df e, read_csv (input_file self) = Return df ->
                validate_data df = Raise e ->
                extract read_csv self = (Raise e, self)) /\
  (forall df, read_csv (input_file self) = Return df ->
              validate_data df = Return true ->
              extract read_csv self =
              (Return df, mkProcessor (input_file self) (Some df) (results self))) /\
  (forall df self', extract read_csv self = (Return df, self') ->
                    validate_data df = Return true /\ data self' = Some df).
Proof.
  split; [|split; [|split]].
  - intros e He. unfold extract, bind, call. now rewrite He.
  - intros df e Hdf He. unfold extract, bind, call. now rewrite Hdf, He.
  - intros df Hdf Hv. unfold extract, bind, call, set_data, ret.
    now rewrite Hdf, Hv.
  - intros df self' He. apply extract_Return in He. tauto.
Qed.

(** X9: [load_json] reads [results] and [data] as the object holds them.
    After a new [extract], until [transform] runs again, the dictionary pairs
    the ranking and the driver count of the earlier data with the lap count
    of the new data: the number of its [Driver] cells that are not blank,
    which is the number of its rows when none is. *)
Theorem load_json_after_new_extract (read_csv : string -> result DataFrame)
        (self self' : F1LapTimesProcessor) (df : DataFrame)
        (res : list DriverStats) (n : Z) :
  results self = Some res ->
  extract read_csv self = (Return df, self') ->
  load_json n self' =
  (Return (mkResultDict (head res n) (length res) (Series.count (col_Driver df))),
   self') /\
  ((forall r, In r (rows df) -> row_Driver r <> NaN) ->
   load_json n self' =
   (Return (mkResultDict (head res n) (length res) (length (rows df))), self')).
Proof.
  intros Hres He.
  destruct (extract_Return _ _ _ _ He) as (_ & _ & Hdata & Hres').
  rewrite Hres in Hres'.
  assert (Hload : load_json n self' =
                  (Return (mkResultDict (head res n) (length res)
                                        (Series.count (col_Driver df))), self')).
  { unfold load_json, bind. rewrite (get_top_n_results _ res) by assumption.
    rewrite Hres', Hdata. reflexivity. }
  split; [assumption|]. intros Hall. rewrite Hload.
  rewrite count_notna_length.
  - unfold col_Driver. now rewrite length_map.
  - intros c Hc. unfold col_Driver in Hc.
    apply in_map_iff in Hc as (r & <- & Hr). now apply Hall.
Qed.

Lemma load_json_after_new_extract_witness :
  load_json 3
    (mkProcessor "test_lap_times.csv" (Some close_means_data) (Some test_results)) =
  (Return (mkResultDict (head test_results 3) (length test_results)
                        (Series.count (col_Driver close_means_data))),
   mkProcessor "test_lap_times.csv" (Some close_means_data) (Some test_results)) /\
  ((forall r, In r (rows close_means_data) -> row_Driver r <> NaN) ->
   load_json 3
     (mkProcessor "test_lap_times.csv" (Some close_means_data) (Some test_results)) =
   (Return (mkResultDict (head test_results 3) (length test_results)
                         (length (rows close_means_data))),
    mkProcessor "test_lap_times.csv" (Some close_means_data) (Some test_results))).
Proof.
  apply (load_json_after_new_extract
           (fun _ => Return close_means_data)
           (mkProcessor "test_lap_times.csv" (Some test_data) (Some test_results))
           (mkProcessor "test_lap_times.csv" (Some close_means_data)
              (Some test_results))
           close_means_data);
    reflexivity.
Defined.

(* ================================================================== *)
(** * The sample data generator *)

#[export] Instance lcg_Random : Random.
Proof.
  refine {| rng := Z;
            random := fun s => (lcg_next s # 2147483648, lcg_next s);
            randbelow := fun n s => ((lcg_next s mod n)%Z, lcg_next s);
            shuffle := fun l s => (rev l, lcg_next s) |}.
  - intro g. cbn [fst].
    assert (Hb : (0 <= lcg_next g < 2147483648)%Z)
      by (unfold lcg_next; apply Z.mod_pos_bound; lia).
    revert Hb. generalize (lcg_next g). intros z Hz.
    unfold Qle, Qlt. cbn [Qnum Qden]. lia.
  - intros n g Hn. simpl. apply Z.mod_pos_bound. assumption.
  - intros l g. simpl. apply Permutation_rev.
Defined.

Section Generator.

Context {R : Random}.

Lemma uniform_range (a b : Q) (g : rng) :
  a <= b -> a <= fst (uniform a b g) /\ fst (uniform a b g) <= b.
Proof.
  intros Hab. unfold uniform.
  destruct (random_unit g) as [H0 H1]. destruct (random g) as [u g']. simpl in *.
  assert (Hd : 0 <= b - a) by (unfold Qminus; rewrite <- Qle_minus_iff; assumption).
  split.
  - rewrite <- (Qplus_0_r a) at 1. apply Qplus_le_r.
    now apply Qmult_le_0_compat.
  - assert (H : (b - a) * u <= (b - a) * 1).
    { rewrite !(Qmult_comm (b - a)). apply Qmult_le_compat_r; [|assumption].
      now apply Qlt_le_weak. }
    rewrite Qmult_1_r in H.
    apply (Qplus_le_r _ _ a) in H. eapply Qle_trans; [exact H|].
    apply Qle_lteq. right. ring.
Qed.

Lemma randint_range (a b : Z) (g : rng) :
  (a <= b)%Z -> (a <= fst (randint a b g) <= b)%Z.
Proof.
  intros Hab. unfold randint.
  pose proof (randbelow_below (b + 1 - a) g) as H.
  destruct (randbelow (b + 1 - a) g) as [k g']. simpl in *. lia.
Qed.

Lemma generate_laps_records (driver_name : string) (base_time : Q) (n : nat)
      (variance : Q) (g : rng) :
  length (fst (generate_laps driver_name base_time n variance g)) = n /\
  Forall (lap_record driver_name base_time variance)
         (fst (generate_laps driver_name base_time n variance g)).
Proof.
  revert g. induction n as [|n IH]; intros g; simpl.
  - split; [reflexivity|constructor].
  - pose proof (uniform_range (- variance) variance g) as Hu.
    destruct (uniform (- variance) variance g) as [u g1]. simpl in Hu.
    specialize (IH g1).
    destruct (generate_laps driver_name base_time n variance g1) as [laps g2].
    simpl in *. destruct IH as [Hlen Hall]. split; [now f_equal|].
    constructor; [|assumption].
    unfold lap_record. simpl. repeat split.
    + apply Qle_trans with (Series.round 2 1);
        [|apply round_monotone, Q.le_max_r].
      vm_compute. discriminate.
    + unfold round, Series.round. eexists. reflexivity.
    + apply round_monotone, Q.max_le_compat_r.
      unfold Qminus. apply Qplus_le_r. apply Hu.
      apply Qle_trans with 0; [|assumption].
      apply (Qopp_le_compat 0 variance). assumption.
    + apply round_monotone, Q.max_le_compat_r.
      apply Qplus_le_r. apply Hu.
      apply Qle_trans with 0; [|assumption].
      apply (Qopp_le_compat 0 variance). assumption.
Qed.

End Generator.


Lemma col_Time_DataFrame_of (records : list (string * Q)) :
  col_Time (DataFrame_of records) = map Num (map snd records).
Proof. unfold col_Time, DataFrame_of. simpl. now rewrite !map_map. Qed.

Lemma col_Driver_DataFrame_of (records : list (string * Q)) :
  col_Driver (DataFrame_of records) = map Str (map fst records).
Proof. unfold col_Driver, DataFrame_of. simpl. now rewrite !map_map. Qed.

(** A frame built from records with times that are not negative passes
    [validate_data] as soon as it has a row. *)
Lemma validate_data_DataFrame_of (records : list (string * Q)) :
  records <> [] -> Forall (fun r => 0 <= snd r) records ->
  validate_data (DataFrame_of records) = Return true.
Proof.
  intros Hne Hpos. unfold validate_data.
  change (forallb (has_column (DataFrame_of records)) required_columns) with true.
  cbv iota. simpl negb. cbv iota.
  assert (Hempty : empty (DataFrame_of records) = false).
  { apply empty_false. simpl. split; [|discriminate].
    destruct records; [congruence|discriminate]. }
  rewrite Hempty.
  assert (Hnum : is_numeric_dtype (col_Time (DataFrame_of records)) = true).
  { apply is_numeric_dtype_true. rewrite col_Time_DataFrame_of. split.
    - destruct records; [congruence|discriminate].
    - intros c Hc str ->. apply in_map_iff in Hc as (q & Hq & _). discriminate. }
  rewrite Hnum. simpl negb. cbv iota.
  assert (Hneg : existsb lt_zero (col_Time (DataFrame_of records)) = false).
  { rewrite col_Time_DataFrame_of. apply existsb_lt_zero.
    intros q Hq. apply in_map_iff in Hq as (q' & Heq & Hq').
    injection Heq as ->. apply in_map_iff in Hq' as (r & <- & Hr).
    rewrite Forall_forall in Hpos. now apply Hpos. }
  now rewrite Hneg.
Qed.

Lemma has_driver_DataFrame_of (records : list (string * Q)) :
  records <> [] -> has_driver (DataFrame_of records).
Proof.
  destruct records as [|r records]; [congruence|]. intros _.
  exists (mkRow (Str (fst r)) (Num (snd r))). split; [now left|discriminate].
Qed.

(** A column of names: every cell is a key, and counts as itself. *)
Lemma keys_map_Str (l : list string) : keys (map Str l) = map Str l.
Proof.
  unfold keys. induction l as [|s l IH]; simpl; [reflexivity|].
  now rewrite IH.
Qed.

Lemma count_occ_map_Str (l : list string) (d : string) :
  count_occ cell_dec (map Str l) (Str d) = count_occ string_dec l d.
Proof.
  induction l as [|s l IH]; [reflexivity|]. cbn [map count_occ].
  destruct (cell_dec (Str s) (Str d)) as [E|NE], (string_dec s d) as [E'|NE'];
    congruence.
Qed.

Lemma count_map_Str (l : list string) : Series.count (map Str l) = length l.
Proof.
  rewrite count_notna_length; [apply length_map|].
  intros c Hc. apply in_map_iff in Hc as (s & <- & _). discriminate.
Qed.

Lemma nunique_map_Str (l l' : list string) :
  NoDup l' -> (forall d, In d l <-> In d l') ->
  nunique (map Str l) = length l'.
Proof.
  intros Hnd Hin. unfold nunique. rewrite keys_map_Str.
  rewrite <- (length_map Str l').
  apply Permutation_length, NoDup_Permutation.
  - apply NoDup_nodup.
  - apply Finite.Injective_map_NoDup; [|assumption].
    intros x y Hxy. now injection Hxy.
  - intros c. rewrite nodup_In, !in_map_iff. split.
    + intros (s & <- & Hs). exists s. split; [reflexivity|now apply Hin].
    + intros (s & <- & Hs). exists s. split; [reflexivity|now apply Hin].
Qed.

Lemma count_occ_block (name d : string) (block : list (string * Q)) :
  Forall (fun r => fst r = name) block ->
  count_occ string_dec (map fst block) d =
  if string_dec name d then length block else 0%nat.
Proof.
  induction 1 as [|r block Hr Hall IH]; simpl.
  - now destruct (string_dec name d).
  - rewrite IH, Hr. now destruct (string_dec name d).
Qed.

Section AllLapTimes.

Context {R : Random}.

Lemma all_lap_times_records (ds : list (string * Q)) (g : rng) :
  NoDup (map fst ds) ->
  Forall (fun r => In (fst r) (map fst ds) /\ 1 <= snd r)
         (fst (all_lap_times ds g)) /\
  (forall d, In d (map fst ds) ->
     (3 <= count_occ string_dec (map fst (fst (all_lap_times ds g))) d <= 8)%nat) /\
  (3 * length ds <= length (fst (all_lap_times ds g)) <= 8 * length ds)%nat.
Proof.
  revert g. induction ds as [|[name base] ds IH]; intros g Hnd; simpl.
  - split; [constructor|]. split; [intros d []|lia].
  - inversion Hnd as [|? ? Hnotin Hnd']; subst.
    pose proof (randint_range 3 8 g ltac:(lia)) as Hk.
    destruct (randint 3 8 g) as [k g1]. simpl in Hk.
    pose proof (generate_laps_records name base (Z.to_nat k) 0.5 g1) as [Hlen Hblock].
    unfold generate_lap_times.
    destruct (generate_laps name base (Z.to_nat k) 0.5 g1) as [block g2].
    simpl in Hlen, Hblock.
    specialize (IH g2 Hnd'). destruct (all_lap_times ds g2) as [rest g3].
    simpl in *. destruct IH as (Hall & Hcount & Hrest).
    assert (Hname : Forall (fun r => fst r = name) block).
    { eapply Forall_impl; [|exact Hblock]. intros r Hr. apply Hr. }
    assert (Hzero : count_occ string_dec (map fst rest) name = 0%nat).
    { apply count_occ_not_In. intros Hin.
      apply in_map_iff in Hin as (r & Hr & Hin).
      rewrite Forall_forall in Hall. destruct (Hall r Hin) as [Hin' _].
      rewrite Hr in Hin'. contradiction. }
    split; [|split].
    + apply Forall_app. split.
      * eapply Forall_impl; [|exact Hblock]. intros r (Hr & H1 & _).
        split; [now left|assumption].
      * eapply Forall_impl; [|exact Hall]. intros r [Hr H1].
        split; [now right|assumption].
    + intros d Hd. rewrite map_app, count_occ_app, (count_occ_block name d block Hname).
      destruct (string_dec name d) as [<-|Hne].
      * rewrite Hzero. lia.
      * destruct Hd as [Hd|Hd]; [contradiction|].
        specialize (Hcount d Hd). lia.
    + rewrite length_app. lia.
Qed.

End AllLapTimes.

Lemma drivers_NoDup : NoDup (map fst drivers).
Proof.
  replace (map fst drivers) with (nodup string_dec (map fst drivers))
    by (vm_compute; reflexivity).
  apply NoDup_nodup.
Qed.

(** The frame [create_f1_sample_data] writes. *)
Lemma create_f1_sample_data_frame `{Random} (output_file : string)
      (fs : files) (g : rng) :
  exists records,
    fst (create_f1_sample_data output_file fs g) =
      to_csv (DataFrame_of records) output_file fs /\
    Forall (fun r => In (fst r) (map fst drivers) /\ 1 <= snd r) records /\
    (forall d, In d (map fst drivers) ->
       (3 <= count_occ string_dec (map fst records) d <= 8)%nat) /\
    (45 <= length records <= 120)%nat.
Proof.
  unfold create_f1_sample_data.
  destruct (all_lap_times_records drivers g drivers_NoDup) as (Hall & Hcount & Hlen).
  destruct (all_lap_times drivers g) as [laps g1]. simpl in Hall, Hcount, Hlen.
  pose proof (shuffle_Permutation laps g1) as Hperm.
  destruct (shuffle laps g1) as [records g2]. simpl in Hperm.
  exists records. split; [reflexivity|]. split; [|split].
  - eapply Permutation_Forall; eassumption.
  - intros d Hd.
    rewrite <- (proj1 (Permutation_count_occ string_dec _ _)
                      (Permutation_map fst Hperm) d).
    now apply Hcount.
  - rewrite <- (Permutation_length Hperm). exact Hlen.
Qed.

(** X11: whatever the generator draws, [create_f1_sample_data] writes, at
    the path it is given and nowhere else, a frame that passes
    [validate_data]: it has the 15 drivers of the list and no other, between
    3 and 8 rows for each of them (45 to 120 in all), and every time is at
    least 1.0. *)
Theorem create_f1_sample_data_is_valid `{Random} (output_file : string)
        (fs : files) (g : rng) :
  exists df,
    fst (create_f1_sample_data output_file fs g) output_file = Some df /\
    (forall p, p <> output_file ->
               fst (create_f1_sample_data output_file fs g) p = fs p) /\
    validate_data df = Return true /\
    nunique (col_Driver df) = 15%nat /\
    (forall d, In d (col_Driver df) <-> In d (map Str (map fst drivers))) /\
    (forall d, In d (map fst drivers) ->
       (3 <= count_occ cell_dec (col_Driver df) (Str d) <= 8)%nat) /\
    (45 <= length (rows df) <= 120)%nat /\
    Forall (fun c => exists t, c = Num t /\ 1 <= t) (col_Time df).
Proof.
  destruct (create_f1_sample_data_frame output_file fs g)
    as (records & Hfs & Hall & Hcount & Hlen).
  exists (DataFrame_of records). rewrite Hfs.
  assert (Hin : forall d, In d (map fst records) <-> In d (map fst drivers)).
  { intros d. split.
    - intros Hd. apply in_map_iff in Hd as (r & <- & Hr).
      rewrite Forall_forall in Hall. now apply Hall.
    - intros Hd. apply (count_occ_In string_dec). specialize (Hcount d Hd). lia. }
  split; [unfold to_csv; now rewrite String.eqb_refl|].
  split.
  { intros p Hp. unfold to_csv.
    destruct (String.eqb_spec p output_file); [contradiction|reflexivity]. }
  split.
  { apply validate_data_DataFrame_of.
    - destruct records; [simpl in Hlen; lia|discriminate].
    - eapply Forall_impl; [|exact Hall]. intros r [_ Hr].
      apply Qle_trans with 1; [|assumption]. unfold Qle; simpl; lia. }
  rewrite col_Driver_DataFrame_of, col_Time_DataFrame_of.
  split.
  { change 15%nat with (length (map fst drivers)).
    apply nunique_map_Str; [apply drivers_NoDup|exact Hin]. }
  split.
  { intros d. rewrite !in_map_iff. split.
    - intros (s & <- & Hs). exists s. split; [reflexivity|now apply Hin].
    - intros (s & <- & Hs). exists s. split; [reflexivity|now apply Hin]. }
  split; [intros d Hd; rewrite count_occ_map_Str; now apply Hcount|]. split.
  { unfold DataFrame_of. simpl. now rewrite length_map. }
  rewrite map_map. apply Forall_map.
  eapply Forall_impl; [|exact Hall]. intros r [_ Hr]. now exists (snd r).
Qed.

(* ================================================================== *)
(** * Runs of the whole pipeline *)

Lemma has_driver_dec (df : DataFrame) : has_driver df \/ ~ has_driver df.
Proof.
  destruct (group_keys (col_Driver df)) eqn:E.
  - right. intros H. now apply has_driver_keys in H.
  - left. apply has_driver_keys. rewrite E. discriminate.
Qed.

Lemma run_pipeline_valid {F : Float64} `{SortValues} (df : DataFrame) :
  validate_data df = Return true -> has_driver df ->
  exists res,
    map rank res = seq 1 (nunique (col_Driver df)) /\
    forall (read_csv : string -> result DataFrame) (top_n : Z)
           (self : F1LapTimesProcessor),
      read_csv (input_file self) = Return df ->
      run_pipeline read_csv top_n self =
      (Return (head res top_n,
               mkResultDict (head res top_n) (nunique (col_Driver df))
                            (Series.count (col_Driver df))),
       mkProcessor (input_file self) (Some df) (Some res)).
Proof.
  intros Hvalid Hdrv.
  destruct (transform_valid (mkProcessor "" (Some df) None) df eq_refl Hvalid Hdrv)
    as (g & Hgdef & Hg & _ & Hlen & _).
  assert (Hlen' : length (ranked g) = nunique (col_Driver df))
    by now rewrite ranked_length.
  exists (ranked g). split.
  { rewrite ranked_rank. now f_equal. }
  intros read_csv top_n self Hread.
  assert (He : extract read_csv self =
               (Return df, mkProcessor (input_file self) (Some df) (results self))).
  { unfold extract, bind, call, set_data, ret. now rewrite Hread, Hvalid. }
  destruct (transform_valid (mkProcessor (input_file self) (Some df) (results self))
                            df eq_refl Hvalid Hdrv)
    as (g' & Hgdef' & _ & _ & _ & Htr).
  rewrite <- Hgdef in Hgdef'. subst g'.
  unfold run_pipeline, bind. rewrite He, Htr. simpl.
  unfold load_csv, load_json, bind, get_top_n, ret. simpl.
  now rewrite Hlen'.
Qed.

(** X12: [main] run on the file [create_f1_sample_data] writes under its
    default name never fails, whatever the generator drew and whatever the
    sort does on ties: it emits three rows, of ranks 1, 2 and 3, and reports
    15 drivers and between 45 and 120 laps. *)
Theorem main_after_create_f1_sample_data `{Random} {F : Float64} `{SortValues}
        (fs : files) (g : rng) :
  exists top json self',
    main (fst (create_f1_sample_data "f1_lap_times.csv" fs g)) =
    (Return (top, json), self') /\
    top_drivers json = top /\
    map rank top = [1; 2; 3]%nat /\
    total_drivers_analyzed json = 15%nat /\
    (45 <= total_laps_analyzed json <= 120)%nat.
Proof.
  destruct (create_f1_sample_data_frame "f1_lap_times.csv" fs g)
    as (records & Hfs & Hall & Hcount & Hlen).
  set (df := DataFrame_of records).
  assert (Hne : records <> []) by (destruct records; [simpl in Hlen; lia|discriminate]).
  assert (Hvalid : validate_data df = Return true).
  { apply validate_data_DataFrame_of; [assumption|].
    eapply Forall_impl; [|exact Hall]. intros r [_ Hr].
    apply Qle_trans with 1; [|assumption]. unfold Qle; simpl; lia. }
  assert (Hn : nunique (col_Driver df) = 15%nat).
  { unfold df. rewrite col_Driver_DataFrame_of.
    change 15%nat with (length (map fst drivers)).
    apply nunique_map_Str; [apply drivers_NoDup|].
    intros d. split.
    - intros Hd. apply in_map_iff in Hd as (r & <- & Hr).
      rewrite Forall_forall in Hall. now apply Hall.
    - intros Hd. apply (count_occ_In string_dec).
      specialize (Hcount d Hd). lia. }
  destruct (run_pipeline_valid df Hvalid (has_driver_DataFrame_of records Hne))
    as (res & Hrank & Hrun).
  unfold main. rewrite Hrun by (rewrite Hfs; reflexivity). rewrite Hn.
  eexists _, _, _. split; [reflexivity|]. simpl.
  split; [reflexivity|]. split.
  - rewrite head_firstn by lia. rewrite <- firstn_map, Hrank, Hn. reflexivity.
  - split; [reflexivity|]. unfold df.
    rewrite col_Driver_DataFrame_of, count_map_Str. now rewrite length_map.
Qed.

(** X13: a run of the pipeline can be repeated.  When [run_pipeline]
    succeeds, running it again on the object it leaves, with the same files
    and the same top-N argument, returns the same rows and dictionary and
    leaves the object as it is. *)
Theorem run_pipeline_idempotent {F : Float64} `{SortValues}
        (read_csv : string -> result DataFrame) (top_n : Z)
        (self self' : F1LapTimesProcessor)
        (out : list DriverStats * ResultDict) :
  run_pipeline read_csv top_n self = (Return out, self') ->
  run_pipeline read_csv top_n self' = (Return out, self').
Proof.
  intros Hrun.
  destruct (extract read_csv self) as [[df|e] self1] eqn:He.
  - destruct (extract_Return _ _ _ _ He) as (Hread & Hvalid & Hdata & _).
    destruct (has_driver_dec df) as [Hdrv|Hno].
    + destruct (run_pipeline_valid df Hvalid Hdrv) as (res & _ & Hany).
      rewrite (Hany read_csv top_n self Hread) in Hrun.
      inversion Hrun; subst out self'; clear Hrun.
      rewrite (Hany read_csv top_n) by exact Hread. reflexivity.
    + unfold run_pipeline, bind in Hrun.
      rewrite He, (transform_without_driver self1 df Hdata Hvalid Hno) in Hrun.
      discriminate.
  - unfold run_pipeline, bind in Hrun. rewrite He in Hrun. discriminate.
Qed.

Lemma run_pipeline_idempotent_witness :
  @run_pipeline exact_Float64 insertion_SortValues test_files 3
    (mkProcessor "test_lap_times.csv" (Some test_data) (Some test_results)) =
  (Return (test_results, mkResultDict test_results 3 8),
   mkProcessor "test_lap_times.csv" (Some test_data) (Some test_results)).
Proof.
  apply (@run_pipeline_idempotent exact_Float64 insertion_SortValues test_files 3
           (__init__ "test_lap_times.csv")).
  vm_compute. reflexivity.
Defined.
